(** * rx-request: an observable HTTP request and its XML remote-call layer

    A shallow embedding of [src/rx-request.js].  The JavaScript functions
    keep their names.  Three things the file takes from its environment are
    kept apart from the code of the file itself:

    - the values of the language (strings, numbers, plain objects in
      enumeration order, parsed documents);
    - the platform functions [JSON.parse], [DOMParser.parseFromString], the
      numeric conversion of a text (unary [+]) and the printing of a number,
      gathered in the class [Platform], so that every statement about the
      code holds for whatever the platform computes;
    - the transport handle ([XMLHttpRequest]), a record of what the handle
      reports together with the log of the calls made on it. *)

From Stdlib Require Import String Ascii ZArith List Bool Lia.
From stdpp Require Import base tactics option list strings pretty gmap.

Local Open Scope Z_scope.
#[local] Set Warnings "-register-all".

(** ** Texts *)

(** The double quote, written by its code point. *)
Definition dquote : ascii := ascii_of_nat 34.

Definition quoted (s : string) : string :=
  String dquote (s +:+ String dquote EmptyString).

Fixpoint concat_strings (l : list string) : string :=
  match l with
  | [] => EmptyString
  | s :: r => s +:+ concat_strings r
  end.

Definition char_string (c : ascii) : string := String c EmptyString.

Fixpoint string_drop (n : nat) (s : string) : string :=
  match n, s with
  | O, _ => s
  | S k, String _ r => string_drop k r
  | S _, EmptyString => EmptyString
  end.

(** ** Values *)

(** Numbers.  The file only compares a number with zero, stores it and
    has it printed; the embedding keeps the integer-valued numbers and
    [NaN].  Reading a number in a text and printing one are the
    platform's. *)
Inductive number :=
| Int (z : Z)
| NaN.

(** A parsed XML document is a tree of elements and text nodes. *)
Inductive node :=
| Element (tag : string) (childNodes : list node)
| TextNode (text : string).

Record document := Document { documentNodes : list node }.

(** A value.  [JObj] is a plain object, given by the properties a
    [for (k in obj)] visits, in that order; [JArr] is an array. *)
Inductive jsval :=
| JUndefined
| JNull
| JBool (b : bool)
| JNum (n : number)
| JStr (s : string)
| JObj (props : list (string * jsval))
| JArr (items : list jsval).

(** What a transport hands over: a value, a parsed document, or the
    [ArrayBuffer] or [Blob] of the binary formats. *)
Inductive payload :=
| Value (v : jsval)
| Doc (d : document)
| Binary (octets : string).

(** ** The platform *)

(** What the file calls and does not define.  [JSON_parse] is [None] when
    [JSON.parse] throws; [parseFromString text mime] is
    [new DOMParser().parseFromString(text, mime)]; [ToNumber text] is
    [+text]; [Number_toString n] is the text of the number [n], as
    [n.toString()] and a template give it. *)
Class Platform := {
  JSON_parse : string → option jsval;
  parseFromString : string → string → payload;
  ToNumber : string → number;
  Number_toString : number → string;
}.

Inductive jstype := TUndefined | TObject | TBoolean | TNumber | TString.

Definition typeof (v : jsval) : jstype :=
  match v with
  | JUndefined => TUndefined
  | JNull => TObject
  | JBool _ => TBoolean
  | JNum _ => TNumber
  | JStr _ => TString
  | JObj _ | JArr _ => TObject
  end.

Definition is_object (v : jsval) : bool :=
  match typeof v with TObject => true | _ => false end.

(** [v == null] *)
Definition nullish (v : jsval) : bool :=
  match v with JUndefined | JNull => true | _ => false end.

(** [blob == null] *)
Definition null_payload (blob : payload) : bool :=
  match blob with Value v => nullish v | _ => false end.

(** Truthiness, as [||], [&&] and [if] use it. *)
Definition truthy (v : jsval) : bool :=
  match v with
  | JUndefined | JNull => false
  | JBool b => b
  | JNum (Int z) => negb (z =? 0)
  | JNum NaN => false
  | JStr s => negb (String.eqb s EmptyString)
  | JObj _ | JArr _ => true
  end.

(** [items.join(",")], given the text of every item. *)
Fixpoint join_comma (texts : list string) : string :=
  match texts with
  | [] => EmptyString
  | [t] => t
  | t :: r => t +:+ "," +:+ join_comma r
  end.

(** The text of a value, as [v.toString()] and a template give it.  An
    array joins the texts of its items, an absent or null item giving the
    empty text. *)
Fixpoint toString `{Platform} (v : jsval) : string :=
  match v with
  | JUndefined => "undefined"
  | JNull => "null"
  | JBool true => "true"
  | JBool false => "false"
  | JNum n => Number_toString n
  | JStr s => s
  | JObj _ => "[object Object]"
  | JArr items =>
      join_comma
        (map (fun item => if nullish item then EmptyString else toString item) items)
  end.

(** An optional text: an absent property reads as [undefined]. *)
Definition opt_truthy (o : option string) : bool :=
  match o with
  | Some s => negb (String.eqb s EmptyString)
  | None => false
  end.

(** [`${o}`] *)
Definition opt_template (o : option string) : string :=
  match o with
  | Some s => s
  | None => "undefined"
  end.

(** [o == lit] for a text literal [lit]. *)
Definition opt_is (o : option string) (lit : string) : bool :=
  match o with
  | Some s => String.eqb s lit
  | None => false
  end.

(** ** The XML serializer *)

(** [ENTITIES_REG = /[&<>]/g] *)
Definition ENTITIES_REG (c : ascii) : bool :=
  (Ascii.eqb c "&" || Ascii.eqb c "<" || Ascii.eqb c ">")%bool.

(** [ENTITIES] *)
Definition ENTITIES : list (ascii * string) :=
  [ ("&"%char, "&amp;"); ("<"%char, "&lt;"); (">"%char, "&gt;") ].

Fixpoint entity_lookup (table : list (ascii * string)) (tag : ascii) : option string :=
  match table with
  | [] => None
  | (k, v) :: r => if Ascii.eqb k tag then Some v else entity_lookup r tag
  end.

(** [s.replace(re, f)] for a global one-character class [re] and a
    replacer function [f]: every character of the class is replaced by the
    text [f] gives for it, the others are copied. *)
Fixpoint replace_class (re : ascii → bool) (f : ascii → string) (s : string) : string :=
  match s with
  | EmptyString => EmptyString
  | String c r =>
      if re c then f c +:+ replace_class re f r
      else String c (replace_class re f r)
  end.

(** [(xml || '').toString().replace(ENTITIES_REG, tag => ENTITIES[tag])] *)
Definition escapeXml `{Platform} (xml : jsval) : string :=
  replace_class ENTITIES_REG
    (fun tag => opt_template (entity_lookup ENTITIES tag))
    (toString (if truthy xml then xml else JStr EmptyString)).

(** The properties [for (k in v)] visits, with their values: those of a
    plain object in enumeration order, the indices of a text, none for the
    other values. *)
Fixpoint indexed (i : nat) (items : list jsval) : list (string * jsval) :=
  match items with
  | [] => []
  | item :: r => (pretty i, item) :: indexed (S i) r
  end.

Definition indexed_chars (s : string) : list (string * jsval) :=
  indexed 0 (map (fun c => JStr (char_string c)) (list_ascii_of_string s)).

Definition for_in (v : jsval) : list (string * jsval) :=
  match v with
  | JObj props => props
  | JArr items => indexed 0 items
  | JStr s => indexed_chars s
  | _ => []
  end.

(** [`<${attrName}>${inner}</${attrName}>`] *)
Definition xml_element (attrName inner : string) : string :=
  "<" +:+ attrName +:+ ">" +:+ inner +:+ "</" +:+ attrName +:+ ">".

(** The loop of [objToXML] over the visited properties, [xml] being the
    text built so far and [self] the recursive call. *)
Fixpoint objToXML_loop `{Platform} (self : jsval → string) (xml : string)
    (props : list (string * jsval)) : string :=
  match props with
  | [] => xml
  | (attrName, attr) :: rest =>
      let inner := if is_object attr then self attr else escapeXml attr in
      objToXML_loop self (xml +:+ xml_element attrName inner) rest
  end.

(** The loop over the items of an array, [i] being the index reached. *)
Fixpoint objToXML_items `{Platform} (self : jsval → string) (xml : string) (i : nat)
    (items : list jsval) : string :=
  match items with
  | [] => xml
  | attr :: rest =>
      let inner := if is_object attr then self attr else escapeXml attr in
      objToXML_items self (xml +:+ xml_element (pretty i) inner) (S i) rest
  end.

(** [objToXML].  The recursion is on the object; an array and a text are
    visited through their indices (the characters a text enumerates are
    texts, never objects, so that no recursive call starts from them).
    [objToXML_for_in] below states the three cases as the one loop of the
    source. *)
Fixpoint objToXML `{Platform} (obj : jsval) : string :=
  match obj with
  | JObj props => objToXML_loop objToXML EmptyString props
  | JArr items => objToXML_items objToXML EmptyString 0 items
  | JStr s => objToXML_loop (fun _ => EmptyString) EmptyString (indexed_chars s)
  | _ => EmptyString
  end.

(** ** Documents *)

(** The first result of [f] over a list of nodes, in order. *)
Fixpoint first_match (f : node → option node) (nodes : list node) : option node :=
  match nodes with
  | [] => None
  | n :: r => match f n with Some e => Some e | None => first_match f r end
  end.

(** The first element named [name] in the subtree of [n], [n] included, in
    document order. *)
Fixpoint find_element (name : string) (n : node) : option node :=
  match n with
  | TextNode _ => None
  | Element tag kids =>
      if String.eqb tag name then Some n
      else first_match (find_element name) kids
  end.

(** [element.querySelector(name)] where [name] is a type selector, as
    are the three selectors the source writes ([RestCallResult], [Status],
    [Output]): the first descendant element of that name, in document
    order, or [null]. *)
Definition querySelector (name : string) (element : node) : option node :=
  match element with
  | Element _ kids => first_match (find_element name) kids
  | TextNode _ => None
  end.

(** [document.querySelector(name)] *)
Definition document_querySelector (name : string) (d : document) : option node :=
  first_match (find_element name) (documentNodes d).

(** [node.textContent]: the texts below the node, in document order. *)
Fixpoint textContent (n : node) : string :=
  match n with
  | TextNode s => s
  | Element _ kids => concat_strings (map textContent kids)
  end.

(** ** The transport handle *)

Inductive listener := the_onLoad | the_onError.

(** A method call on the handle. *)
Inductive xhr_call :=
| XOpen (method url : string) (async : bool)
| XSetRequestHeader (name value : string)
| XAddEventListener (type : string) (l : listener) (useCapture : bool)
| XSend (body : jsval)
| XRemoveEventListener (type : string) (l : listener)
| XAbort.

(** The handle: what it reports, the decode mode assigned to it, and the
    calls made on it, oldest first. *)
Record XMLHttpRequest := {
  readyState : Z;
  status : Z;
  statusText : string;
  response : payload;
  responseText : string;
  responseURL : string;
  getResponseHeader : string → option string;
  responseType : string;
  calls : list xhr_call;
}.

(** The event a listener receives; it has no [status]. *)
Record ProgressEvent := {
  target : XMLHttpRequest;
  total : Z;
}.

(** The object a [RequestError] is built from. *)
Inductive source_object :=
| OfXhr (x : XMLHttpRequest)
| OfEvent (e : ProgressEvent).

(** [xhr.status] on either object. *)
Definition status_of (xhr : source_object) : jsval :=
  match xhr with
  | OfXhr x => JNum (Int (status x))
  | OfEvent _ => JUndefined
  end.

(** ** Errors *)

Record RequestErrorObj := {
  re_name : string;
  re_url : string;
  re_xhr : source_object;
  re_code : jsval;
  re_reason : jsval;
  re_message : string;
}.

(** [RequestError(url, xhr, message, reason = null)] *)
Definition RequestError (url : string) (xhr : source_object) (message : string)
    (reason : jsval) : RequestErrorObj :=
  {| re_name := "RequestError";
     re_url := url;
     re_xhr := xhr;
     re_code := status_of xhr;
     re_reason := reason;
     re_message := "request: " +:+ message +:+ " (" +:+ url +:+ ")" |}.

Record RestCallMethodErrorObj := {
  rc_name : string;
  rc_url : string;
  rc_code : number;
  rc_message : string;
}.

Definition newline : string := String (ascii_of_nat 10) EmptyString.

(** [RestCallMethodError(url, { code, method, message })] *)
Definition RestCallMethodError `{Platform} (url : string) (code : number)
    (method message : option string) : RestCallMethodErrorObj :=
  {| rc_name := "RestCallMethodError";
     rc_url := url;
     rc_code := code;
     rc_message :=
       "restmethodcall: webservice error status " +:+ Number_toString code
       +:+ " (" +:+ url +:+ ")"
       +:+ (if opt_truthy method then " (" +:+ opt_template method +:+ ")"
            else EmptyString)
       +:+ (if opt_truthy message then newline +:+ opt_template message
            else EmptyString) |}.

(** What a call can throw. *)
Inductive thrown :=
| ThrownRequestError (e : RequestErrorObj)
| ThrownRestCallMethodError (e : RestCallMethodErrorObj)
| ThrownTypeError.

Inductive completion (A : Type) :=
| Return (a : A)
| Throw (e : thrown).
Arguments Return {A} a.
Arguments Throw {A} e.

(** ** The envelope reader *)

Record RestCallResultObj := {
  output : option node;
  result_status : number;
}.

(** [n < 0] *)
Definition negative (n : number) : bool :=
  match n with
  | Int z => z <? 0
  | NaN => false
  end.

(** [RestCallResult].  A member access on [null] throws a [TypeError]. *)
Definition RestCallResult `{Platform} (response : document) (url : string)
    (scriptInfo : option string) : completion RestCallResultObj :=
  match document_querySelector "RestCallResult" response with
  | None => Throw ThrownTypeError
  | Some restCallResult =>
      match querySelector "Status" restCallResult with
      | None => Throw ThrownTypeError
      | Some statusElement =>
          let status := ToNumber (textContent statusElement) in
          if negative status then
            Throw (ThrownRestCallMethodError
                     (RestCallMethodError url status scriptInfo None))
          else
            Return {| output := querySelector "Output" restCallResult;
                      result_status := status |}
      end
  end.

(** [toJSONForIE] *)
Definition toJSONForIE `{Platform} (blob : string) : jsval :=
  match JSON_parse blob with
  | Some v => v
  | None => JNull
  end.

(** ** Plain objects built by assignment *)

(** The number a text of decimal digits writes, if it is one. *)
Fixpoint decimal_value (acc : N) (s : string) : option N :=
  match s with
  | EmptyString => Some acc
  | String c r =>
      let n := nat_of_ascii c in
      if (48 <=? n)%nat && (n <=? 57)%nat
      then decimal_value (acc * 10 + N.of_nat (n - 48)) r
      else None
  end.

(** A property name is an array index when it is the decimal text of a
    number below 2^32 - 1, written without a leading zero. *)
Definition array_index (key : string) : option N :=
  match decimal_value 0 key with
  | Some n =>
      if String.eqb (pretty n) key && (n <? 4294967295)%N then Some n else None
  | None => None
  end.

(** The own properties of an object whose property values are of type
    [V], in the order the language keeps them: the array indices first, in
    increasing order, then the other names in the order of their
    creation. *)
Abbreviation properties V := (list (string * V)).

(** The value of the own property [key], if there is one. *)
Fixpoint own_property {V} (key : string) (props : properties V) : option V :=
  match props with
  | [] => None
  | (k, v) :: r => if String.eqb k key then Some v else own_property key r
  end.

(** The value of an existing property is replaced where the property is. *)
Fixpoint replace_value {V} (key : string) (v : V) (props : properties V)
    : properties V :=
  match props with
  | [] => []
  | (k, w) :: r =>
      if String.eqb k key then (k, v) :: r else (k, w) :: replace_value key v r
  end.

(** A new array index is created at its place among the array indices. *)
Fixpoint insert_index {V} (n : N) (key : string) (v : V) (props : properties V)
    : properties V :=
  match props with
  | [] => [(key, v)]
  | (k, w) :: r =>
      match array_index k with
      | Some m =>
          if (m <? n)%N then (k, w) :: insert_index n key v r
          else (key, v) :: (k, w) :: r
      | None => (key, v) :: (k, w) :: r
      end
  end.

(** The own data property [key] is given the value [v]: replaced when
    there is one, created otherwise. *)
Definition define_property {V} (key : string) (v : V) (props : properties V)
    : properties V :=
  match own_property key props with
  | Some _ => replace_value key v props
  | None =>
      match array_index key with
      | Some n => insert_index n key v props
      | None => props ++ [(key, v)]
      end
  end.

(** A plain object: whether its prototype is still [Object.prototype] (it
    is [null] otherwise), and its own properties. *)
Record object V := {
  inherits : bool;
  own : properties V;
}.
Arguments inherits {V} _.
Arguments own {V} _.

(** [{}] *)
Definition new_object {V} : object V := {| inherits := true; own := [] |}.

(** Whether [obj[key] = ...] reaches the accessor [__proto__] of
    [Object.prototype]: the name is [__proto__], the object has no own
    property of that name and still inherits. *)
Definition reaches_proto_accessor {V} (key : string) (obj : object V) : bool :=
  String.eqb key "__proto__" && inherits obj
  && match own_property key (own obj) with Some _ => false | None => true end.

(** [obj[key] = v] on a plain object, [v] being a text or [null]
    ([None]).  Through the accessor [__proto__], assigning a text does
    nothing and assigning [null] sets the prototype to [null]; neither
    creates a property.  Every other assignment, and the one to
    [__proto__] once the prototype is [null], gives the object the own
    property. *)
Definition assign (key : string) (v : option string) (obj : object (option string))
    : object (option string) :=
  if reaches_proto_accessor key obj then
    match v with
    | Some _ => obj
    | None => {| inherits := false; own := own obj |}
    end
  else {| inherits := inherits obj; own := define_property key v (own obj) |}.

(** [getResponseHeadersList]: the values are texts or [null] ([None]). *)
Fixpoint getResponseHeadersList_loop (xhr : XMLHttpRequest)
    (headers : object (option string)) (headersList : list string)
    : object (option string) :=
  match headersList with
  | [] => headers
  | header :: rest =>
      getResponseHeadersList_loop xhr
        (assign header (getResponseHeader xhr header) headers) rest
  end.

Definition getResponseHeadersList (xhr : XMLHttpRequest) (headersList : list string)
    : object (option string) :=
  getResponseHeadersList_loop xhr new_object headersList.

(** ** Request options *)

(** The options object.  An absent property is [None]; [withMetadata] is
    kept by its truthiness. *)
Module Options.
Record t := make {
  url : string;
  method : option string;
  data : jsval;
  headers : option (list (string * string));
  format : option string;
  withMetadata : bool;
  responseHeaders : option (list string);
  ScriptInfo : option string;
}.

Definition set_method (v : option string) (o : t) : t :=
  make (url o) v (data o) (headers o) (format o) (withMetadata o)
       (responseHeaders o) (ScriptInfo o).
Definition set_headers (v : option (list (string * string))) (o : t) : t :=
  make (url o) (method o) (data o) v (format o) (withMetadata o)
       (responseHeaders o) (ScriptInfo o).
Definition set_data (v : jsval) (o : t) : t :=
  make (url o) (method o) v (headers o) (format o) (withMetadata o)
       (responseHeaders o) (ScriptInfo o).
Definition set_format (v : option string) (o : t) : t :=
  make (url o) (method o) (data o) (headers o) v (withMetadata o)
       (responseHeaders o) (ScriptInfo o).
End Options.

(** Objects live in a store and are passed by reference. *)
Abbreviation loc := nat.
Abbreviation heap := (gmap nat Options.t).

(** ** What an observer receives *)

(** The record emitted when [withMetadata] is set. *)
Record RequestOutcome := {
  md_blob : payload;
  md_size : Z;
  md_duration : Z;
  md_headers : option (object (option string));
  md_url : string;
  md_xhr : XMLHttpRequest;
}.

Inductive emitted :=
| Bare (blob : payload)
| WithMetadata (m : RequestOutcome).

Inductive notification :=
| OnNext (v : emitted)
| OnError (e : thrown)
| OnCompleted.

(** ** One subscription *)

(** The variable [xhr] of the closure: the handle, or [null]. *)
Inductive reference := null | to_handle.

(** The state one subscription owns: the options destructured when it
    started, the handle object, the variable [xhr], the dispatch time and
    the notifications delivered so far, oldest first. *)
Record subscription := {
  vars : Options.t;
  handle : XMLHttpRequest;
  xhr : reference;
  sent : Z;
  observer : list notification;
}.

Definition set_handle (x : XMLHttpRequest) (s : subscription) : subscription :=
  {| vars := vars s; handle := x; xhr := xhr s; sent := sent s;
     observer := observer s |}.

Definition set_xhr (r : reference) (s : subscription) : subscription :=
  {| vars := vars s; handle := handle s; xhr := r; sent := sent s;
     observer := observer s |}.

Definition notify (n : notification) (s : subscription) : subscription :=
  {| vars := vars s; handle := handle s; xhr := xhr s; sent := sent s;
     observer := observer s ++ [n] |}.

(** *** The handle as the platform changes it *)

(** [new XMLHttpRequest()] *)
Definition new_XMLHttpRequest : XMLHttpRequest :=
  {| readyState := 0; status := 0; statusText := EmptyString;
     response := Value (JStr EmptyString); responseText := EmptyString;
     responseURL := EmptyString; getResponseHeader := fun _ => None;
     responseType := EmptyString; calls := [] |}.

Definition set_readyState (rs : Z) (x : XMLHttpRequest) : XMLHttpRequest :=
  {| readyState := rs; status := status x; statusText := statusText x;
     response := response x; responseText := responseText x;
     responseURL := responseURL x; getResponseHeader := getResponseHeader x;
     responseType := responseType x; calls := calls x |}.

Definition set_responseType (ty : string) (x : XMLHttpRequest) : XMLHttpRequest :=
  {| readyState := readyState x; status := status x; statusText := statusText x;
     response := response x; responseText := responseText x;
     responseURL := responseURL x; getResponseHeader := getResponseHeader x;
     responseType := ty; calls := calls x |}.

(** A call is logged on the handle. *)
Definition call (c : xhr_call) (x : XMLHttpRequest) : XMLHttpRequest :=
  {| readyState := readyState x; status := status x; statusText := statusText x;
     response := response x; responseText := responseText x;
     responseURL := responseURL x; getResponseHeader := getResponseHeader x;
     responseType := responseType x; calls := calls x ++ [c] |}.

(** [xhr.open(method, url, true)]: the handle becomes opened (1). *)
Definition xhr_open (method url : string) (x : XMLHttpRequest) : XMLHttpRequest :=
  set_readyState 1 (call (XOpen method url true) x).

(** The handle of an exchange that has no response: no status, no text. *)
Definition network_error (x : XMLHttpRequest) : XMLHttpRequest :=
  {| readyState := readyState x; status := 0; statusText := EmptyString;
     response := Value JNull; responseText := EmptyString;
     responseURL := EmptyString; getResponseHeader := fun _ => None;
     responseType := responseType x; calls := calls x |}.

(** [xhr.abort()]: the exchange is dropped and the handle is unsent (0)
    again. *)
Definition xhr_abort (x : XMLHttpRequest) : XMLHttpRequest :=
  set_readyState 0 (network_error (call XAbort x)).

(** What the transport reports when the exchange ends. *)
Record reply := {
  reply_status : Z;
  reply_statusText : string;
  reply_response : payload;
  reply_responseText : string;
  reply_responseURL : string;
  reply_header : string → option string;
}.

(** The handle once the reply is in: done (4). *)
Definition completed (r : reply) (x : XMLHttpRequest) : XMLHttpRequest :=
  {| readyState := 4; status := reply_status r; statusText := reply_statusText r;
     response := reply_response r; responseText := reply_responseText r;
     responseURL := reply_responseURL r; getResponseHeader := reply_header r;
     responseType := responseType x; calls := calls x |}.

(** The handle after a network failure: done (4), with no response. *)
Definition failed (x : XMLHttpRequest) : XMLHttpRequest :=
  set_readyState 4 (network_error x).

Definition listener_eqb (a b : listener) : bool :=
  match a, b with
  | the_onLoad, the_onLoad | the_onError, the_onError => true
  | _, _ => false
  end.

(** Whether listener [l] is registered for [type] after the calls [cs],
    [attached] telling whether it was before them. *)
Fixpoint listening_from (attached : bool) (type : string) (l : listener)
    (cs : list xhr_call) : bool :=
  match cs with
  | [] => attached
  | XAddEventListener t l' _ :: r =>
      listening_from (attached || (String.eqb t type && listener_eqb l' l)) type l r
  | XRemoveEventListener t l' :: r =>
      listening_from (attached && negb (String.eqb t type && listener_eqb l' l)) type l r
  | _ :: r => listening_from attached type l r
  end.

Definition listening (type : string) (l : listener) (x : XMLHttpRequest) : bool :=
  listening_from false type l (calls x).

(** *** The function given to [Observable.create] *)

(** [for (var name in headers) xhr.setRequestHeader(name, headers[name])] *)
Fixpoint set_request_headers (headers : list (string * string))
    (x : XMLHttpRequest) : XMLHttpRequest :=
  match headers with
  | [] => x
  | (name, value) :: rest =>
      set_request_headers rest (call (XSetRequestHeader name value) x)
  end.

(** [a || b] on optional texts, [b] a literal. *)
Definition opt_or (a : option string) (b : string) : string :=
  if opt_truthy a then opt_template a else b.

(** The body run when an observer subscribes, up to [xhr.send(data)];
    [now] is what [Date.now()] returns. *)
Definition subscribe (options : Options.t) (now : Z) : subscription :=
  let x0 := new_XMLHttpRequest in
  let x1 := xhr_open (opt_or (Options.method options) "GET") (Options.url options) x0 in
  let x2 :=
    if opt_is (Options.format options) "document"
    then set_responseType "text" x1
    else set_responseType (opt_or (Options.format options) "text") x1 in
  let x3 :=
    match Options.headers options with
    | Some headers => set_request_headers headers x2
    | None => x2
    end in
  let x4 := call (XAddEventListener "load" the_onLoad false) x3 in
  let x5 := call (XAddEventListener "error" the_onError false) x4 in
  let x6 := call (XSend (Options.data options)) x5 in
  {| vars := options; handle := x6; xhr := to_handle; sent := now; observer := [] |}.

(** The payload [onLoad] obtains, before the test against [null]. *)
Definition decode `{Platform} (format : option string) (x : XMLHttpRequest)
    : payload :=
  let blob :=
    if opt_is format "document"
    then parseFromString (responseText x) "text/xml"
    else response x in
  match blob with
  | Value (JStr text) =>
      if opt_is format "json" then Value (toJSONForIE text) else blob
  | _ => blob
  end.

Definition null_response_message (format : option string) : string :=
  "null response with format " +:+ quoted (opt_template format)
  +:+ " (error while parsing or wrong content-type)".

(** [onLoad]; [now] is what [Date.now()] returns. *)
Definition onLoad `{Platform} (now : Z) (evt : ProgressEvent) (s : subscription)
    : subscription :=
  let url := Options.url (vars s) in
  let format := Options.format (vars s) in
  let x := target evt in
  let st := status x in
  if (st <? 200) || (st >=? 300) then
    notify (OnError (ThrownRequestError
                       (RequestError url (OfXhr x) (statusText x) JNull))) s
  else
    let duration := now - sent s in
    let blob := decode format x in
    if null_payload blob then
      notify (OnError (ThrownRequestError
                         (RequestError url (OfXhr x)
                            (null_response_message format) JNull))) s
    else
      let s1 :=
        if Options.withMetadata (vars s) then
          let headers :=
            match Options.responseHeaders (vars s) with
            | Some headersList => Some (getResponseHeadersList x headersList)
            | None => None
            end in
          notify (OnNext (WithMetadata
                    {| md_blob := blob;
                       md_size := total evt;
                       md_duration := duration;
                       md_headers := headers;
                       md_url := if String.eqb (responseURL x) EmptyString
                                 then url else responseURL x;
                       md_xhr := x |})) s
        else notify (OnNext (Bare blob)) s in
      notify OnCompleted s1.

(** [onError]: the error is built from the event itself. *)
Definition onError (e : ProgressEvent) (s : subscription) : subscription :=
  notify (OnError (ThrownRequestError
                     (RequestError (Options.url (vars s)) (OfEvent e)
                        "error event" JNull))) s.

(** The function returned to [Observable.create], run on unsubscribe.
    Destructuring [null] throws a [TypeError]. *)
Definition teardown (s : subscription) : completion subscription :=
  match xhr s with
  | null => Throw ThrownTypeError
  | to_handle =>
      let rs := readyState (handle s) in
      let s1 :=
        if (0 <? rs) && (rs <? 4) then
          set_handle
            (xhr_abort
               (call (XRemoveEventListener "error" the_onError)
                  (call (XRemoveEventListener "load" the_onLoad) (handle s)))) s
        else s in
      Return (set_xhr null s1)
  end.

(** *** The transport's events *)

(** The exchange ends with a reply: the handle is done, then the load
    listener runs if it is registered. *)
Definition transport_load `{Platform} (r : reply) (total now : Z)
    (s : subscription) : subscription :=
  let x := completed r (handle s) in
  let s' := set_handle x s in
  if listening "load" the_onLoad x
  then onLoad now {| target := x; total := total |} s'
  else s'.

(** The exchange fails: the handle is done, then the error listener runs if
    it is registered. *)
Definition transport_error (s : subscription) : subscription :=
  let x := failed (handle s) in
  let s' := set_handle x s in
  if listening "error" the_onError x
  then onError {| target := x; total := 0 |} s'
  else s'.

(** The handle moves on while the exchange lasts (headers received 2,
    loading 3); no listener of the file is concerned. *)
Definition transport_progress (rs : Z) (s : subscription) : subscription :=
  set_handle (set_readyState rs (handle s)) s.

(** ** The remote-call adapter *)

(** [s.replace(pattern, replacement)] for two texts: the first occurrence
    of the pattern is replaced, and in the replacement [$$] stands for a
    dollar, [$&] for the matched text, [$`] and [$'] for what precedes and
    follows it. *)
Fixpoint GetSubstitution (matched before after replacement : string) : string :=
  match replacement with
  | EmptyString => EmptyString
  | String "$" (String "$" r) => "$" +:+ GetSubstitution matched before after r
  | String "$" (String "&" r) => matched +:+ GetSubstitution matched before after r
  | String "$" (String "`" r) => before +:+ GetSubstitution matched before after r
  | String "$" (String "'" r) => after +:+ GetSubstitution matched before after r
  | String c r => String c (GetSubstitution matched before after r)
  end.

(** The text before and the text after the first occurrence of [pattern]. *)
Fixpoint split_first (pattern s : string) : option (string * string) :=
  if String.prefix pattern s
  then Some (EmptyString, string_drop (String.length pattern) s)
  else match s with
       | EmptyString => None
       | String c r =>
           match split_first pattern r with
           | Some (before, after) => Some (String c before, after)
           | None => None
           end
       end.

Definition string_replace (s pattern replacement : string) : string :=
  match split_first pattern s with
  | Some (before, after) =>
      before +:+ GetSubstitution pattern before after replacement +:+ after
  | None => s
  end.

Definition METHOD_CALL_XML : string :=
  "<RestCallMethod xmlns:i="
  +:+ quoted "http://www.w3.org/2001/XMLSchema-instance"
  +:+ ">{payload}</RestCallMethod>".

(** A producer: the one [Observable.create] builds from the options object,
    or that producer mapped through [RestCallResult], which reads the
    options again when a value arrives. *)
Inductive observable :=
| Create (options : loc)
| MapRestCallResult (source : observable) (options : loc).

(** [restCallMethod], given [request].  The four assignments are made on
    the object [options] refers to. *)
Definition restCallMethod `{Platform}
    (request : loc → heap → option (heap * observable))
    (options : loc) (h : heap) : option (heap * observable) :=
  let h1 := alter (Options.set_method (Some "POST")) options h in
  let h2 := alter (Options.set_headers
                     (Some [("Content-Type", "application/xml")])) options h1 in
  match h2 !! options with
  | None => None
  | Some o =>
      let body := string_replace METHOD_CALL_XML "{payload}" (objToXML (Options.data o)) in
      let h3 := alter (Options.set_data (JStr body)) options h2 in
      let h4 := alter (Options.set_format (Some "document")) options h3 in
      match request options h4 with
      | Some (h5, source) => Some (h5, MapRestCallResult source options)
      | None => None
      end
  end.

(** [request]; [fuel] bounds the calls between [request] and
    [restCallMethod]. *)
Fixpoint request `{Platform} (fuel : nat) (options : loc) (h : heap)
    : option (heap * observable) :=
  match fuel with
  | O => None
  | S fuel' =>
      match h !! options with
      | None => None
      | Some o =>
          if opt_is (Options.format o) "rest-call-method"
          then restCallMethod (request fuel') options h
          else Some (h, Create options)
      end
  end.

(** The options object a producer reads when it is subscribed to. *)
Fixpoint source_options (producer : observable) : loc :=
  match producer with
  | Create options => options
  | MapRestCallResult source _ => source_options source
  end.

(** Subscribing to a producer: nothing is done on the transport before;
    the options are read in the store as they are at that moment. *)
Definition observable_subscribe (producer : observable) (h : heap) (now : Z)
    : option subscription :=
  match h !! source_options producer with
  | Some o => Some (subscribe o now)
  | None => None
  end.

(** [(data) => RestCallResult(data, options.url, options.ScriptInfo)], [o]
    being the options object when the value arrives.  A value that is no
    document has no [querySelector] to call. *)
Definition restCallMethod_map `{Platform} (o : Options.t) (data : emitted)
    : completion RestCallResultObj :=
  match data with
  | Bare (Doc d) => RestCallResult d (Options.url o) (Options.ScriptInfo o)
  | _ => Throw ThrownTypeError
  end.

(** ** A reference platform *)

(** The statements about the code hold for every platform.  The examples
    run on this one: decimal integers for [ToNumber] and
    [Number_toString], and readers for the
    fragments of JSON and XML the examples are written in (JSON: objects,
    arrays, texts with the short escapes, integers, [true], [false],
    [null]; XML: elements, whose attributes are dropped, texts and the five
    predefined entities).  A text outside its fragment is refused by the
    reader, as a malformed text is. *)
Module Reference.

Definition is_space (c : ascii) : bool :=
  let n := nat_of_ascii c in
  ((9 <=? n)%nat && (n <=? 13)%nat) || (n =? 32)%nat.

Definition is_digit (c : ascii) : bool :=
  let n := nat_of_ascii c in (48 <=? n)%nat && (n <=? 57)%nat.

Definition digit_value (c : ascii) : Z := Z.of_nat (nat_of_ascii c) - 48.

Fixpoint skip_space (s : string) : string :=
  match s with
  | String c r => if is_space c then skip_space r else s
  | EmptyString => s
  end.

Definition trim (s : string) : string :=
  String.rev (skip_space (String.rev (skip_space s))).

(** The digits at the head of [s], as a number, and what follows them. *)
Fixpoint digits (acc : Z) (s : string) : Z * string :=
  match s with
  | String c r => if is_digit c then digits (acc * 10 + digit_value c) r else (acc, s)
  | EmptyString => (acc, s)
  end.

Definition starts_with_digit (s : string) : bool :=
  match s with String c _ => is_digit c | EmptyString => false end.

Definition unsigned_integer (s : string) : number :=
  if starts_with_digit s then
    match digits 0 s with
    | (z, EmptyString) => Int z
    | _ => NaN
    end
  else NaN.

Definition negate (n : number) : number :=
  match n with Int z => Int (- z) | NaN => NaN end.

(** Whether the text holds no space. *)
Fixpoint spaceless (s : string) : bool :=
  match s with
  | EmptyString => true
  | String c r => negb (is_space c) && spaceless r
  end.

(** An integer is printed in decimal notation, as the language prints the
    integers below [10^21] in absolute value; the examples stay well
    inside. *)
Definition Number_toString (n : number) : string :=
  match n with
  | Int z => pretty z
  | NaN => "NaN"
  end.

Definition ToNumber (text : string) : number :=
  match trim text with
  | EmptyString => Int 0
  | String "-" r => negate (unsigned_integer r)
  | String "+" r => unsigned_integer r
  | t => unsigned_integer t
  end.

(** *** JSON *)

(** [obj[key] = v] on the properties of a plain object. *)
Fixpoint put (key : string) (v : jsval) (props : list (string * jsval))
    : list (string * jsval) :=
  match props with
  | [] => [(key, v)]
  | (k, w) :: r => if String.eqb k key then (k, v) :: r else (k, w) :: put key v r
  end.

Definition unescape (c : ascii) : option ascii :=
  if Ascii.eqb c dquote then Some dquote
  else if Ascii.eqb c "\" then Some "\"%char
  else if Ascii.eqb c "/" then Some "/"%char
  else if Ascii.eqb c "b" then Some (ascii_of_nat 8)
  else if Ascii.eqb c "f" then Some (ascii_of_nat 12)
  else if Ascii.eqb c "n" then Some (ascii_of_nat 10)
  else if Ascii.eqb c "r" then Some (ascii_of_nat 13)
  else if Ascii.eqb c "t" then Some (ascii_of_nat 9)
  else None.

(** The text up to the closing quote, and what follows the quote. *)
Fixpoint json_text (s : string) : option (string * string) :=
  match s with
  | EmptyString => None
  | String c r =>
      if Ascii.eqb c dquote then Some (EmptyString, r)
      else if Ascii.eqb c "\" then
        match r with
        | String e r' =>
            match unescape e, json_text r' with
            | Some c', Some (t, rest) => Some (String c' t, rest)
            | _, _ => None
            end
        | EmptyString => None
        end
      else if (nat_of_ascii c <? 32)%nat then None
      else match json_text r with
           | Some (t, rest) => Some (String c t, rest)
           | None => None
           end
  end.

Definition after_number (s : string) : bool :=
  match s with
  | String c _ => negb (Ascii.eqb c "." || Ascii.eqb c "e" || Ascii.eqb c "E")
  | EmptyString => true
  end.

(** An integer without a leading zero. *)
Definition json_integer (s : string) : option (Z * string) :=
  match s with
  | String "0" r =>
      if starts_with_digit r || negb (after_number r) then None else Some (0, r)
  | _ =>
      if starts_with_digit s then
        let '(z, r) := digits 0 s in
        if after_number r then Some (z, r) else None
      else None
  end.

Definition literal (word : string) (v : jsval) (s : string) : option (jsval * string) :=
  if String.prefix word s then Some (v, string_drop (String.length word) s) else None.

Fixpoint json_value (fuel : nat) (s : string) : option (jsval * string) :=
  match fuel with
  | O => None
  | S fuel' =>
      match skip_space s with
      | String "{" r =>
          match skip_space r with
          | String "}" r' => Some (JObj [], r')
          | r' => json_members fuel' [] r'
          end
      | String "[" r =>
          match skip_space r with
          | String "]" r' => Some (JArr [], r')
          | r' => json_elements fuel' [] r'
          end
      | String "-" r =>
          match json_integer r with
          | Some (z, r') => Some (JNum (Int (- z)), r')
          | None => None
          end
      | String c r as t =>
          if Ascii.eqb c dquote then
            match json_text r with
            | Some (text, r') => Some (JStr text, r')
            | None => None
            end
          else if is_digit c then
            match json_integer t with
            | Some (z, r') => Some (JNum (Int z), r')
            | None => None
            end
          else
            match literal "true" (JBool true) t with
            | Some res => Some res
            | None =>
                match literal "false" (JBool false) t with
                | Some res => Some res
                | None => literal "null" JNull t
                end
            end
      | EmptyString => None
      end
  end
with json_members (fuel : nat) (acc : list (string * jsval)) (s : string)
    : option (jsval * string) :=
  match fuel with
  | O => None
  | S fuel' =>
      match skip_space s with
      | String c r =>
          if Ascii.eqb c dquote then
            match json_text r with
            | Some (key, r1) =>
                match skip_space r1 with
                | String ":" r2 =>
                    match json_value fuel' r2 with
                    | Some (v, r3) =>
                        match skip_space r3 with
                        | String "," r4 => json_members fuel' (put key v acc) r4
                        | String "}" r4 => Some (JObj (put key v acc), r4)
                        | _ => None
                        end
                    | None => None
                    end
                | _ => None
                end
            | None => None
            end
          else None
      | EmptyString => None
      end
  end
with json_elements (fuel : nat) (acc : list jsval) (s : string)
    : option (jsval * string) :=
  match fuel with
  | O => None
  | S fuel' =>
      match json_value fuel' s with
      | Some (v, r) =>
          match skip_space r with
          | String "," r' => json_elements fuel' (acc ++ [v]) r'
          | String "]" r' => Some (JArr (acc ++ [v]), r')
          | _ => None
          end
      | None => None
      end
  end.

Definition JSON_parse (text : string) : option jsval :=
  match json_value (2 * String.length text + 2) text with
  | Some (v, rest) =>
      match skip_space rest with
      | EmptyString => Some v
      | _ => None
      end
  | None => None
  end.

(** *** XML *)

Definition name_end (c : ascii) : bool :=
  is_space c || Ascii.eqb c ">" || Ascii.eqb c "/".

Fixpoint xml_name (s : string) : string * string :=
  match s with
  | String c r =>
      if name_end c then (EmptyString, s)
      else let '(n, rest) := xml_name r in (String c n, rest)
  | EmptyString => (EmptyString, s)
  end.

(** Past the attributes of a start tag: whether the tag closes itself,
    and what follows it.  [inside] is the quote of the attribute value
    being read, if any. *)
Fixpoint skip_attributes (inside : option ascii) (s : string) : option (bool * string) :=
  match s with
  | EmptyString => None
  | String c r =>
      match inside with
      | Some q => skip_attributes (if Ascii.eqb c q then None else inside) r
      | None =>
          if Ascii.eqb c ">" then Some (false, r)
          else if Ascii.eqb c "/" then
            match r with
            | String ">" r' => Some (true, r')
            | _ => None
            end
          else if Ascii.eqb c "<" then None
          else if Ascii.eqb c dquote || Ascii.eqb c "'" then skip_attributes (Some c) r
          else skip_attributes None r
      end
  end.

Definition entities : list (string * ascii) :=
  [ ("amp;", "&"%char); ("lt;", "<"%char); ("gt;", ">"%char);
    ("quot;", dquote); ("apos;", "'"%char) ].

Fixpoint entity (table : list (string * ascii)) (s : string) : option (ascii * nat) :=
  match table with
  | [] => None
  | (word, c) :: r =>
      if String.prefix word s then Some (c, String.length word) else entity r s
  end.

(** The character data up to the next tag.  [skip] counts the characters
    of an entity reference still to pass over. *)
Fixpoint xml_text (skip : nat) (s : string) : option (string * string) :=
  match s with
  | EmptyString => Some (EmptyString, s)
  | String c r =>
      match skip with
      | S k => xml_text k r
      | O =>
          if Ascii.eqb c "<" then Some (EmptyString, s)
          else if Ascii.eqb c "&" then
            match entity entities r with
            | Some (c', n) =>
                match xml_text n r with
                | Some (t, rest) => Some (String c' t, rest)
                | None => None
                end
            | None => None
            end
          else match xml_text O r with
               | Some (t, rest) => Some (String c t, rest)
               | None => None
               end
      end
  end.

Definition end_tag (name s : string) : option string :=
  if String.prefix ("</" +:+ name) s then
    match skip_space (string_drop (2 + String.length name) s) with
    | String ">" r => Some r
    | _ => None
    end
  else None.

(** The nodes up to the end tag of the enclosing element, and what
    starts with that end tag. *)
Fixpoint xml_nodes (fuel : nat) (s : string) : option (list node * string) :=
  match fuel with
  | O => None
  | S fuel' =>
      match s with
      | EmptyString => Some ([], s)
      | String "<" (String "/" _) => Some ([], s)
      | String "<" r =>
          let '(name, r1) := xml_name r in
          if String.eqb name EmptyString then None else
          match skip_attributes None r1 with
          | Some (true, r2) =>
              match xml_nodes fuel' r2 with
              | Some (rest, r3) => Some (Element name [] :: rest, r3)
              | None => None
              end
          | Some (false, r2) =>
              match xml_nodes fuel' r2 with
              | Some (kids, r3) =>
                  match end_tag name r3 with
                  | Some r4 =>
                      match xml_nodes fuel' r4 with
                      | Some (rest, r5) => Some (Element name kids :: rest, r5)
                      | None => None
                      end
                  | None => None
                  end
              | None => None
              end
          | None => None
          end
      | _ =>
          match xml_text O s with
          | Some (t, r) =>
              match xml_nodes fuel' r with
              | Some (rest, r') => Some (TextNode t :: rest, r')
              | None => None
              end
          | None => None
          end
      end
  end.

(** A text that is not one well-formed element gives the error document. *)
Definition parsererror : payload :=
  Doc (Document [Element "parsererror" [TextNode "error on line 1"]]).

Definition parseFromString (text mime : string) : payload :=
  match xml_nodes (String.length text + 1) (skip_space text) with
  | Some ([Element name kids], EmptyString) =>
      Doc (Document [Element name kids])
  | Some ([Element name kids; TextNode t], EmptyString) =>
      if String.eqb (skip_space t) EmptyString
      then Doc (Document [Element name kids]) else parsererror
  | _ => parsererror
  end.

End Reference.

Definition reference_platform : Platform :=
  {| JSON_parse := Reference.JSON_parse;
     parseFromString := Reference.parseFromString;
     ToNumber := Reference.ToNumber;
     Number_toString := Reference.Number_toString |}.

(** ** Inputs of the examples *)

Definition example_url : string := "http://host/ws".

(** [<Output><Name>n</Name></Output>] *)
Definition example_output : node := Element "Output" [Element "Name" [TextNode "n"]].

(** [<RestCallResult><Status>..</Status><Output>..</Output></RestCallResult>] *)
Definition example_result (statusText : string) : node :=
  Element "RestCallResult" [Element "Status" [TextNode statusText]; example_output].

(** The document of that element alone. *)
Definition example_envelope (statusText : string) : document :=
  Document [example_result statusText].

(** An envelope whose result has an [Output] and no [Status]. *)
Definition example_no_status : document :=
  Document [Element "RestCallResult" [example_output]].

(** An envelope whose [Output] comes first and holds a [Status] of its own. *)
Definition example_nested_status : document :=
  Document [Element "RestCallResult"
              [Element "Output" [Element "Status" [TextNode "5"]];
               Element "Status" [TextNode "-3"]]].

(** A request for [example_url] with the given format, flag and names of
    response headers. *)
Definition example_options (format : option string) (withMetadata : bool)
    (responseHeaders : option (list string)) : Options.t :=
  Options.make example_url None JNull None format withMetadata responseHeaders None.

(** A reply whose only header is [X-Total: 42]. *)
Definition example_reply (status : Z) (statusText : string) (response : payload)
    (responseText : string) : reply :=
  {| reply_status := status;
     reply_statusText := statusText;
     reply_response := response;
     reply_responseText := responseText;
     reply_responseURL := EmptyString;
     reply_header := fun name => if String.eqb name "X-Total" then Some "42" else None |}.

(** The text [{"a":1}]. *)
Definition example_json : string := "{" +:+ quoted "a" +:+ ":1}".

(** Whether the character occurs in the text. *)
Fixpoint occurs (c : ascii) (s : string) : bool :=
  match s with
  | EmptyString => false
  | String c' r => Ascii.eqb c' c || occurs c r
  end.

(** The two parts of [METHOD_CALL_XML] around the payload. *)
Definition envelope_open : string :=
  "<RestCallMethod xmlns:i=" +:+ quoted "http://www.w3.org/2001/XMLSchema-instance" +:+ ">".

Definition envelope_close : string := "</RestCallMethod>".

(** A remote call of the method [GetAccount] with the data [{a: 'v'}]. *)
Definition example_call : Options.t :=
  Options.make example_url None (JObj [("a", JStr "v")]) None
    (Some "rest-call-method") false None (Some "GetAccount").

(** A subscription whose exchange has reached the state [rs]. *)
Definition example_in_flight (rs : Z) : subscription :=
  transport_progress rs (subscribe (example_options None false None) 0).

(** Whether the text holds none of the characters of [ENTITIES_REG]. *)
Fixpoint entity_free (s : string) : bool :=
  match s with
  | EmptyString => true
  | String c r => negb (ENTITIES_REG c) && entity_free r
  end.

(** What a transport can do to a subscription, and a run of such events. *)
Inductive transport_event :=
| Progress (rs : Z)
| Load (r : reply) (total now : Z)
| Failure.

Definition transport_step `{Platform} (ev : transport_event) (s : subscription)
    : subscription :=
  match ev with
  | Progress rs => transport_progress rs s
  | Load r total now => transport_load r total now s
  | Failure => transport_error s
  end.

Fixpoint transport_run `{Platform} (evs : list transport_event) (s : subscription)
    : subscription :=
  match evs with
  | [] => s
  | ev :: rest => transport_run rest (transport_step ev s)
  end.

(** The children of the element that are elements named [name]: the
    [name] child of the specification's wording.  The source never asks
    for the children of an element, only for its descendants. *)
Definition child_elements (name : string) (element : node) : list node :=
  match element with
  | Element _ kids =>
      List.filter (λ kid, match kid with
                          | Element tag _ => String.eqb tag name
                          | TextNode _ => false
                          end) kids
  | TextNode _ => []
  end.

(** An envelope whose result has no [Status] child, its [Output] holding
    a [Status]. *)
Definition example_status_below_output (statusText : string) : document :=
  Document [Element "RestCallResult"
              [Element "Output" [Element "Status" [TextNode statusText]]]].

(** * Properties *)

(** ** Texts *)

Lemma string_app_cons (x : ascii) (a b : string) : String x a +:+ b = String x (a +:+ b).
Proof. reflexivity. Qed.

Lemma string_app_nil_l (s : string) : EmptyString +:+ s = s.
Proof. reflexivity. Qed.

Lemma string_app_nil_r (s : string) : s +:+ EmptyString = s.
Proof. induction s as [|c s IH]; [reflexivity|]. by rewrite string_app_cons, IH. Qed.

Lemma string_app_assoc (a b c : string) : (a +:+ b) +:+ c = a +:+ b +:+ c.
Proof. induction a as [|x a IH]; [reflexivity|]. by rewrite !string_app_cons, IH. Qed.

(** ** The XML serializer *)

(** The loop appends to the text built so far. *)
Lemma objToXML_loop_app `{Platform} self xml props :
  objToXML_loop self xml props = xml +:+ objToXML_loop self EmptyString props.
Proof.
  revert xml. induction props as [|[k v] rest IH]; intros xml; cbn.
  - by rewrite string_app_nil_r.
  - rewrite IH. rewrite (IH (EmptyString +:+ _)). by rewrite string_app_assoc.
Qed.

(** The loop is the concatenation of one element per property, in the
    order of the properties. *)
Lemma objToXML_loop_concat `{Platform} self props :
  objToXML_loop self EmptyString props
  = concat_strings
      (map (fun p => xml_element (fst p)
                       (if is_object (snd p) then self (snd p) else escapeXml (snd p)))
         props).
Proof.
  induction props as [|[k v] rest IH]; [reflexivity|].
  cbn [objToXML_loop map concat_strings fst snd].
  rewrite objToXML_loop_app, IH. reflexivity.
Qed.

Lemma objToXML_items_indexed `{Platform} self xml i items :
  objToXML_items self xml i items = objToXML_loop self xml (indexed i items).
Proof.
  revert xml i. induction items as [|v rest IH]; intros xml i; [reflexivity|].
  cbn. apply IH.
Qed.

(** The recursive call is only used on objects. *)
Lemma objToXML_loop_ext `{Platform} self self' xml props :
  (∀ p, p ∈ props → is_object (snd p) = true → self (snd p) = self' (snd p)) →
  objToXML_loop self xml props = objToXML_loop self' xml props.
Proof.
  revert xml. induction props as [|[k v] rest IH]; intros xml Hs; [reflexivity|].
  cbn. rewrite IH by (intros p Hp; apply Hs; by right).
  destruct (is_object v) eqn:Hv; [|reflexivity].
  pose proof (Hs (k, v) ltac:(by left) Hv) as E. cbn in E. by rewrite E.
Qed.

Lemma indexed_elem p i items : p ∈ indexed i items → snd p ∈ items.
Proof.
  revert i. induction items as [|v rest IH]; intros i; cbn.
  - by intros ?%elem_of_nil.
  - intros [->|Hp]%elem_of_cons; [by left|right; eauto].
Qed.

(** [objToXML] is the loop of the source over what [for (k in obj)]
    visits. *)
Lemma objToXML_for_in `{Platform} obj :
  objToXML obj = objToXML_loop objToXML EmptyString (for_in obj).
Proof.
  destruct obj as [| | | |s| |items]; try reflexivity.
  - cbn. apply objToXML_loop_ext. intros p Hp.
    apply indexed_elem in Hp. apply list_elem_of_fmap in Hp as (c & -> & _).
    discriminate.
  - cbn. apply objToXML_items_indexed.
Qed.

(** On a text, [escapeXml] is the replacement itself: the empty text is the
    only falsy one, and it stays empty. *)
Lemma escapeXml_text `{Platform} s :
  escapeXml (JStr s)
  = replace_class ENTITIES_REG
      (fun tag => opt_template (entity_lookup ENTITIES tag)) s.
Proof. destruct s; reflexivity. Qed.

(** The replacement distributes over concatenation. *)
Lemma replace_class_app re f a b :
  replace_class re f (a +:+ b) = replace_class re f a +:+ replace_class re f b.
Proof.
  induction a as [|c a IH]; [reflexivity|].
  rewrite string_app_cons. cbn [replace_class]. rewrite IH.
  destruct (re c); [by rewrite string_app_assoc|reflexivity].
Qed.

Lemma escapeXml_cons `{Platform} c s :
  escapeXml (JStr (String c s))
  = (if Ascii.eqb c "&" then "&amp;"
     else if Ascii.eqb c "<" then "&lt;"
     else if Ascii.eqb c ">" then "&gt;"
     else String c EmptyString) +:+ escapeXml (JStr s).
Proof.
  rewrite !escapeXml_text. cbn [replace_class]. unfold ENTITIES_REG.
  destruct (Ascii.eqb_spec c "&") as [->|Hamp]; [reflexivity|].
  destruct (Ascii.eqb_spec c "<") as [->|Hlt]; [reflexivity|].
  destruct (Ascii.eqb_spec c ">") as [->|Hgt]; reflexivity.
Qed.

(** C7: [objToXML] renders one element per key, in enumeration order,
    with the rendering of an object-valued entry nested inside and a leaf
    escaped by [escapeXml]: this for every value, over the keys
    [for (k in obj)] visits (the properties of an object, the indices of
    an array or of a text, none otherwise), and so for every object over
    its properties; on a text [escapeXml] turns the ampersand and
    the two angle brackets into their entities and copies every other
    character; [objToXML({a: '<x>'})] is [<a>&lt;x&gt;</a>],
    [objToXML({a: {b: 'v'}})] is [<a><b>v</b></a>] and
    [objToXML({a: ['x', {b: '&'}]})] is
    [<a><0>x</0><1><b>&amp;</b></1></a>]. *)
Theorem objToXML_one_element_per_key `{Platform} :
  (∀ obj,
     objToXML obj
     = concat_strings
         (map (fun p => "<" +:+ fst p +:+ ">"
                        +:+ (if is_object (snd p) then objToXML (snd p)
                             else escapeXml (snd p))
                        +:+ "</" +:+ fst p +:+ ">") (for_in obj)))
  ∧ (∀ props,
     objToXML (JObj props)
     = concat_strings
         (map (fun p => "<" +:+ fst p +:+ ">"
                        +:+ (if is_object (snd p) then objToXML (snd p)
                             else escapeXml (snd p))
                        +:+ "</" +:+ fst p +:+ ">") props))
  ∧ escapeXml (JStr EmptyString) = EmptyString
  ∧ (∀ c s,
       escapeXml (JStr (String c s))
       = (if Ascii.eqb c "&" then "&amp;"
          else if Ascii.eqb c "<" then "&lt;"
          else if Ascii.eqb c ">" then "&gt;"
          else String c EmptyString) +:+ escapeXml (JStr s))
  ∧ objToXML (JObj [("a", JStr "<x>")]) = "<a>&lt;x&gt;</a>"
  ∧ objToXML (JObj [("a", JObj [("b", JStr "v")])]) = "<a><b>v</b></a>"
  ∧ objToXML (JObj [("a", JArr [JStr "x"; JObj [("b", JStr "&")]])])
    = "<a><0>x</0><1><b>&amp;</b></1></a>".
Proof.
  split; [|split; [|split; [|split; [|split; [|split]]]]].
  - intros obj. rewrite objToXML_for_in. apply objToXML_loop_concat.
  - intros props. cbn [objToXML]. apply objToXML_loop_concat.
  - reflexivity.
  - intros c s. apply escapeXml_cons.
  - reflexivity.
  - reflexivity.
  - reflexivity.
Qed.

(** ** The envelope reader *)

Section RestCallResult.
Context `{Platform}.

(** With both elements found, the outcome is decided by the sign of the
    status. *)
Lemma RestCallResult_found response url scriptInfo restCallResult statusElement :
  document_querySelector "RestCallResult" response = Some restCallResult →
  querySelector "Status" restCallResult = Some statusElement →
  RestCallResult response url scriptInfo
  = let status := ToNumber (textContent statusElement) in
    if negative status then
      Throw (ThrownRestCallMethodError (RestCallMethodError url status scriptInfo None))
    else
      Return {| output := querySelector "Output" restCallResult;
                result_status := status |}.
Proof. intros Hr Hs. unfold RestCallResult. by rewrite Hr, Hs. Qed.

(** C6, amended: on a document in which [querySelector] finds a
    [RestCallResult] element and, among its descendants, a [Status]
    element (the first in document order, a child or not), the text of
    that [Status] reading as the integer [z]: [RestCallResult] throws a
    [RestCallMethodError] if and only if [z] is negative, the error then
    carrying the code [z] and the URL given; otherwise it returns the
    record of the [Output] element, found the same way, and the status
    [z]. *)
Theorem RestCallResult_raises_iff_negative response url scriptInfo
    restCallResult statusElement z :
  document_querySelector "RestCallResult" response = Some restCallResult →
  querySelector "Status" restCallResult = Some statusElement →
  ToNumber (textContent statusElement) = Int z →
  ((∃ e, RestCallResult response url scriptInfo = Throw (ThrownRestCallMethodError e))
   ↔ z < 0)
  ∧ (z < 0 →
     ∃ e, RestCallResult response url scriptInfo = Throw (ThrownRestCallMethodError e)
          ∧ e = RestCallMethodError url (Int z) scriptInfo None
          ∧ rc_code e = Int z ∧ rc_url e = url)
  ∧ (0 ≤ z →
     RestCallResult response url scriptInfo
     = Return {| output := querySelector "Output" restCallResult;
                 result_status := Int z |}).
Proof.
  intros Hr Hs Hz.
  rewrite (RestCallResult_found _ _ _ _ _ Hr Hs). cbn zeta. rewrite Hz.
  cbn [negative]. destruct (Z.ltb_spec z 0) as [Hneg|Hpos].
  - split; [|split].
    + split; [done|]. intros _. eauto.
    + intros _. eexists. split; [reflexivity|]. done.
    + lia.
  - split; [|split].
    + split; [|lia]. intros [e He]. discriminate.
    + lia.
    + done.
Qed.

(** C10, amended: on every document in which [querySelector] finds no
    [RestCallResult] element, or no [Status] element among the
    descendants of the one it finds, [RestCallResult] throws a
    [TypeError] (the member access on [null]) and no
    [RestCallMethodError], whatever the document holds otherwise. *)
Theorem RestCallResult_missing_element response url scriptInfo :
  (document_querySelector "RestCallResult" response = None
   ∨ ∃ restCallResult,
       document_querySelector "RestCallResult" response = Some restCallResult
       ∧ querySelector "Status" restCallResult = None) →
  RestCallResult response url scriptInfo = Throw ThrownTypeError
  ∧ ∀ e, RestCallResult response url scriptInfo ≠ Throw (ThrownRestCallMethodError e).
Proof.
  unfold RestCallResult.
  intros [Hr|(r & Hr & Hs)]; rewrite Hr; [|rewrite Hs]; by split.
Qed.

(** Conversely the [TypeError] only comes from a missing element: the
    contract on the sign of the status covers every document in which
    both elements are found. *)
Lemma RestCallResult_TypeError_only_if_missing response url scriptInfo :
  RestCallResult response url scriptInfo = Throw ThrownTypeError →
  document_querySelector "RestCallResult" response = None
  ∨ ∃ restCallResult,
      document_querySelector "RestCallResult" response = Some restCallResult
      ∧ querySelector "Status" restCallResult = None.
Proof.
  unfold RestCallResult.
  destruct (document_querySelector "RestCallResult" response) as [r|] eqn:Hr;
    [|by left].
  destruct (querySelector "Status" r) as [st|] eqn:Hs; [|right; eauto].
  destruct (negative _); discriminate.
Qed.

End RestCallResult.

Lemma RestCallResult_raises_iff_negative_witness :
  document_querySelector "RestCallResult" (example_envelope "-3")
  = Some (example_result "-3")
  ∧ querySelector "Status" (example_result "-3") = Some (Element "Status" [TextNode "-3"])
  ∧ @ToNumber reference_platform (textContent (Element "Status" [TextNode "-3"])) = Int (-3)
  ∧ @RestCallResult reference_platform (example_envelope "-3") example_url (Some "GetAccount")
    = Throw (ThrownRestCallMethodError
               ((@RestCallMethodError reference_platform) example_url (Int (-3)) (Some "GetAccount") None)).
Proof.
  split; [reflexivity|]. split; [reflexivity|]. split; [reflexivity|].
  destruct (@RestCallResult_raises_iff_negative reference_platform
              (example_envelope "-3") example_url (Some "GetAccount")
              (example_result "-3") (Element "Status" [TextNode "-3"]) (-3)
              eq_refl eq_refl eq_refl) as (_ & Hneg & _).
  destruct (Hneg ltac:(lia)) as (e & -> & -> & _). reflexivity.
Defined.

Lemma RestCallResult_missing_element_witness :
  (∃ restCallResult,
     document_querySelector "RestCallResult" example_no_status = Some restCallResult
     ∧ querySelector "Status" restCallResult = None)
  ∧ @RestCallResult reference_platform example_no_status example_url None
    = Throw ThrownTypeError.
Proof.
  assert (∃ restCallResult,
     document_querySelector "RestCallResult" example_no_status = Some restCallResult
     ∧ querySelector "Status" restCallResult = None) as Hm.
  { eexists. split; reflexivity. }
  split; [exact Hm|].
  exact (proj1 (@RestCallResult_missing_element reference_platform
                  example_no_status example_url None (or_intror Hm))).
Defined.

(** C6, the claim as worded fails: the result element of
    [example_nested_status] has one [Status] child, whose text reads as
    the negative integer [-3], and [RestCallResult] throws nothing: it
    returns the status [5] of the [Status] element inside [Output], the
    first that [querySelector] finds. *)
Lemma RestCallResult_reads_a_Status_that_is_no_child :
  ∃ restCallResult,
    document_querySelector "RestCallResult" example_nested_status
    = Some restCallResult
    ∧ child_elements "Status" restCallResult = [Element "Status" [TextNode "-3"]]
    ∧ @ToNumber reference_platform (textContent (Element "Status" [TextNode "-3"]))
      = Int (-3)
    ∧ @RestCallResult reference_platform example_nested_status example_url None
      = Return {| output := Some (Element "Output" [Element "Status" [TextNode "5"]]);
                  result_status := Int 5 |}
    ∧ ¬ ∃ e, @RestCallResult reference_platform example_nested_status example_url None
             = Throw (ThrownRestCallMethodError e).
Proof.
  eexists. split; [reflexivity|]. split; [reflexivity|]. split; [reflexivity|].
  split; [reflexivity|]. intros [e He]. discriminate He.
Qed.

(** C10, the claim as worded fails: the result element of
    [example_status_below_output] has no [Status] child, and
    [RestCallResult] throws no [TypeError]: it reads the [Status] inside
    [Output], returns the record when that status is [5] and throws the
    [RestCallMethodError] when it is [-3]. *)
Lemma RestCallResult_without_Status_child_reads_a_descendant :
  (∀ statusText,
     ∃ restCallResult,
       document_querySelector "RestCallResult" (example_status_below_output statusText)
       = Some restCallResult
       ∧ child_elements "Status" restCallResult = [])
  ∧ @RestCallResult reference_platform (example_status_below_output "5") example_url None
    = Return {| output := Some (Element "Output" [Element "Status" [TextNode "5"]]);
                result_status := Int 5 |}
  ∧ @RestCallResult reference_platform (example_status_below_output "-3") example_url None
    = Throw (ThrownRestCallMethodError
               (@RestCallMethodError reference_platform example_url (Int (-3)) None None))
  ∧ @RestCallResult reference_platform (example_status_below_output "5") example_url None
    ≠ Throw ThrownTypeError
  ∧ @RestCallResult reference_platform (example_status_below_output "-3") example_url None
    ≠ Throw ThrownTypeError.
Proof.
  split; [intros statusText; eexists; split; reflexivity|].
  split; [reflexivity|]. split; [reflexivity|]. split; discriminate.
Qed.

(** The envelope of the specification with status [0]. *)
Example RestCallResult_status_zero :
  @RestCallResult reference_platform (example_envelope "0") example_url None
  = Return {| output := Some example_output; result_status := Int 0 |}.
Proof. reflexivity. Qed.

(** The message of the error names the method when a label is given. *)
Example RestCallMethodError_message :
  rc_message ((@RestCallMethodError reference_platform) example_url (Int (-3)) (Some "GetAccount") None)
  = "restmethodcall: webservice error status -3 (http://host/ws) (GetAccount)".
Proof. reflexivity. Qed.

(** [querySelector] takes the first [Status] in document order, which
    need not be a child of the result element. *)
Example RestCallResult_first_Status_in_document_order :
  @RestCallResult reference_platform example_nested_status example_url None
  = Return {| output := Some (Element "Output" [Element "Status" [TextNode "5"]]);
              result_status := Int 5 |}.
Proof. reflexivity. Qed.

(** ** The subscription *)

Lemma calls_set_readyState rs x : calls (set_readyState rs x) = calls x.
Proof. reflexivity. Qed.

Lemma calls_set_request_headers headers x :
  calls (set_request_headers headers x)
  = calls x ++ map (fun p => XSetRequestHeader (fst p) (snd p)) headers.
Proof.
  revert x. induction headers as [|[name value] rest IH]; intros x; cbn.
  - by rewrite List.app_nil_r.
  - rewrite IH. cbn. by rewrite <- List.app_assoc.
Qed.

Lemma readyState_set_request_headers headers x :
  readyState (set_request_headers headers x) = readyState x.
Proof. revert x. induction headers as [|[??] ? IH]; intros x; [done|]. cbn. by rewrite IH. Qed.

Lemma responseType_set_request_headers headers x :
  responseType (set_request_headers headers x) = responseType x.
Proof. revert x. induction headers as [|[??] ? IH]; intros x; [done|]. cbn. by rewrite IH. Qed.

(** The calls a subscription makes on its handle, in order: [open], one
    [setRequestHeader] per header, the two listeners, [send]. *)
Lemma calls_subscribe options now :
  calls (handle (subscribe options now))
  = [XOpen (opt_or (Options.method options) "GET") (Options.url options) true]
    ++ map (fun p => XSetRequestHeader (fst p) (snd p))
         (default [] (Options.headers options))
    ++ [XAddEventListener "load" the_onLoad false;
        XAddEventListener "error" the_onError false;
        XSend (Options.data options)].
Proof.
  unfold subscribe. cbn [handle].
  destruct (Options.headers options) as [headers|]; cbn [default];
    destruct (opt_is (Options.format options) "document"); cbn;
    rewrite ?calls_set_request_headers; cbn; by rewrite <- ?List.app_assoc.
Qed.

(** After [send] the handle is opened (1) and the variable [xhr] refers to
    it. *)
Lemma readyState_subscribe options now :
  readyState (handle (subscribe options now)) = 1.
Proof.
  unfold subscribe. cbn [handle].
  destruct (Options.headers options); destruct (opt_is _ _); cbn;
    by rewrite ?readyState_set_request_headers.
Qed.

Lemma xhr_subscribe options now : xhr (subscribe options now) = to_handle.
Proof. reflexivity. Qed.

Lemma vars_subscribe options now : vars (subscribe options now) = options.
Proof. reflexivity. Qed.

Lemma vars_set_handle x s : vars (set_handle x s) = vars s.
Proof. reflexivity. Qed.

Lemma listening_from_app attached type l cs1 cs2 :
  listening_from attached type l (cs1 ++ cs2)
  = listening_from (listening_from attached type l cs1) type l cs2.
Proof.
  revert attached. induction cs1 as [|c cs1 IH]; intros attached; [done|].
  destruct c; cbn; apply IH.
Qed.

Lemma listening_from_headers attached type l (headers : list (string * string)) :
  listening_from attached type l
    (map (fun p => XSetRequestHeader (fst p) (snd p)) headers) = attached.
Proof. induction headers as [|? ? IH]; [done|]. cbn. apply IH. Qed.

(** Both listeners are registered once the subscription has started. *)
Lemma listening_subscribe options now :
  listening "load" the_onLoad (handle (subscribe options now)) = true
  ∧ listening "error" the_onError (handle (subscribe options now)) = true.
Proof.
  unfold listening. rewrite calls_subscribe.
  rewrite !listening_from_app, !listening_from_headers. by split.
Qed.

Lemma calls_completed r x : calls (completed r x) = calls x.
Proof. reflexivity. Qed.

Lemma outside_2xx (st : Z) :
  (st <? 200) || (st >=? 300) = true ↔ st < 200 ∨ 300 ≤ st.
Proof.
  rewrite Z.geb_leb, orb_true_iff, Z.ltb_lt, Z.leb_le. tauto.
Qed.

Lemma inside_2xx (st : Z) :
  (st <? 200) || (st >=? 300) = false ↔ 200 ≤ st < 300.
Proof.
  rewrite Z.geb_leb, orb_false_iff, Z.ltb_ge, Z.leb_gt. tauto.
Qed.

(** *** Objects built by assignment *)

Lemma own_property_replace_value {V} key (v : V) props key' :
  own_property key' (replace_value key v props)
  = if String.eqb key key'
    then match own_property key props with Some _ => Some v | None => None end
    else own_property key' props.
Proof.
  induction props as [|[k w] r IH]; cbn [replace_value own_property].
  - by destruct (String.eqb key key').
  - destruct (String.eqb_spec k key) as [->|Hk]; cbn [own_property].
    + by destruct (String.eqb key key').
    + rewrite IH. destruct (String.eqb_spec key key') as [Heq|Hne].
      * rewrite <- Heq. apply String.eqb_neq in Hk. by rewrite Hk.
      * by destruct (String.eqb k key').
Qed.

Lemma own_property_insert_index {V} n key (v : V) props key' :
  own_property key props = None →
  own_property key' (insert_index n key v props)
  = if String.eqb key key' then Some v else own_property key' props.
Proof.
  induction props as [|[k w] r IH]; cbn [insert_index own_property]; [done|].
  destruct (String.eqb_spec k key) as [->|Hk]; [done|]. intros Hnone.
  assert (own_property key' ((key, v) :: (k, w) :: r)
          = if String.eqb key key' then Some v
            else if String.eqb k key' then Some w else own_property key' r)
    as Hfront by reflexivity.
  destruct (array_index k) as [m|]; [|exact Hfront].
  destruct (m <? n)%N; [|exact Hfront].
  cbn [own_property]. rewrite (IH Hnone).
  destruct (String.eqb_spec k key') as [<-|Hk']; [|done].
  apply String.eqb_neq in Hk. rewrite String.eqb_sym in Hk. by rewrite Hk.
Qed.

Lemma own_property_app {V} (props1 props2 : properties V) key :
  own_property key (props1 ++ props2)
  = match own_property key props1 with
    | Some v => Some v
    | None => own_property key props2
    end.
Proof.
  induction props1 as [|[k w] r IH]; [done|]. cbn [app own_property].
  by destruct (String.eqb k key).
Qed.

(** Once defined, the property [key] holds [v]; the other properties are
    as before. *)
Lemma own_property_define_property {V} key (v : V) props key' :
  own_property key' (define_property key v props)
  = if String.eqb key key' then Some v else own_property key' props.
Proof.
  unfold define_property.
  destruct (own_property key props) as [w|] eqn:Hown.
  - rewrite own_property_replace_value, Hown.
    by destruct (String.eqb key key').
  - destruct (array_index key) as [n|].
    + by apply own_property_insert_index.
    + rewrite own_property_app. cbn [own_property].
      destruct (String.eqb_spec key key') as [<-|Hne]; [by rewrite Hown|].
      by destruct (own_property key' props).
Qed.

(** A name that is neither an own property nor an array index becomes the
    last property. *)
Lemma define_property_new {V} key (v : V) props :
  own_property key props = None → array_index key = None →
  define_property key v props = props ++ [(key, v)].
Proof. intros Hown Hidx. unfold define_property. by rewrite Hown, Hidx. Qed.

Lemma inherits_assign key v obj :
  inherits obj = false → inherits (assign key v obj) = false.
Proof.
  intros Hp. unfold assign, reaches_proto_accessor. by rewrite Hp, andb_false_r.
Qed.

(** The assignment gives the object the property, the case of the
    accessor apart. *)
Lemma own_property_assign key v obj key' :
  key ≠ "__proto__" ∨ inherits obj = false →
  own_property key' (own (assign key v obj))
  = if String.eqb key key' then Some v else own_property key' (own obj).
Proof.
  intros Hcase. unfold assign.
  assert (reaches_proto_accessor key obj = false) as ->.
  { unfold reaches_proto_accessor.
    destruct Hcase as [Hne%String.eqb_neq| ->]; [by rewrite Hne|].
    by rewrite andb_false_r. }
  cbn [own]. apply own_property_define_property.
Qed.

(** An assignment to another name leaves the property [key'] as it is. *)
Lemma own_property_assign_other key v obj key' :
  key ≠ key' →
  own_property key' (own (assign key v obj)) = own_property key' (own obj).
Proof.
  intros Hne%String.eqb_neq. unfold assign.
  destruct (reaches_proto_accessor key obj).
  - by destruct v.
  - cbn [own]. by rewrite own_property_define_property, Hne.
Qed.

Lemma getResponseHeadersList_loop_lookup x headers headersList name :
  name ≠ "__proto__" ∨ inherits headers = false →
  own_property name (own (getResponseHeadersList_loop x headers headersList))
  = if bool_decide (name ∈ headersList) then Some (getResponseHeader x name)
    else own_property name (own headers).
Proof.
  revert headers. induction headersList as [|header rest IH]; intros headers Hcase.
  - done.
  - cbn [getResponseHeadersList_loop]. rewrite IH.
    2:{ destruct Hcase as [?|?]; [by left|right; by apply inherits_assign]. }
    destruct (bool_decide (name ∈ rest)) eqn:Hrest.
    + apply bool_decide_eq_true in Hrest.
      by rewrite (bool_decide_eq_true_2 (name ∈ header :: rest)) by (by right).
    + apply bool_decide_eq_false in Hrest.
      destruct (String.eqb_spec header name) as [->|Hne].
      * rewrite (bool_decide_eq_true_2 (name ∈ name :: rest)) by (by left).
        rewrite own_property_assign by done. by rewrite String.eqb_refl.
      * rewrite (bool_decide_eq_false_2 (name ∈ header :: rest))
          by (intros [?|?]%elem_of_cons; congruence).
        by apply own_property_assign_other.
Qed.

(** The name [__proto__] on an object that inherits and has no such
    property: the first assignment of [null] takes the prototype away, and
    only a later one creates the property. *)
Lemma getResponseHeadersList_loop_proto x headers headersList :
  inherits headers = true →
  own_property "__proto__" (own headers) = None →
  own_property "__proto__" (own (getResponseHeadersList_loop x headers headersList))
  = match getResponseHeader x "__proto__" with
    | Some _ => None
    | None =>
        if (2 <=? count_occ String.string_dec headersList "__proto__")%nat
        then Some None
        else None
    end.
Proof.
  revert headers. induction headersList as [|header rest IH]; intros headers Hp Hown.
  - cbn. rewrite Hown. by destruct (getResponseHeader x "__proto__").
  - cbn [getResponseHeadersList_loop].
    destruct (String.eqb_spec header "__proto__") as [->|Hne].
    + rewrite count_occ_cons_eq by done.
      assert (reaches_proto_accessor "__proto__" headers = true) as Hacc.
      { unfold reaches_proto_accessor. by rewrite Hp, Hown. }
      destruct (getResponseHeader x "__proto__") as [v|] eqn:Hv.
      * assert (assign "__proto__" (Some v) headers = headers) as ->.
        { unfold assign. by rewrite Hacc. }
        by rewrite (IH headers Hp Hown).
      * assert (assign "__proto__" None headers
                = {| inherits := false; own := own headers |}) as ->.
        { unfold assign. by rewrite Hacc. }
        rewrite getResponseHeadersList_loop_lookup by (by right).
        rewrite Hv. cbn [own]. rewrite Hown.
        destruct (decide ("__proto__" ∈ rest)) as [Hin|Hout].
        -- rewrite bool_decide_eq_true_2 by done.
           apply list_elem_of_In, (count_occ_In String.string_dec) in Hin.
           destruct (count_occ String.string_dec rest "__proto__"); [lia|done].
        -- rewrite bool_decide_eq_false_2 by done.
           rewrite list_elem_of_In, (count_occ_not_In String.string_dec) in Hout.
           by rewrite Hout.
    + rewrite count_occ_cons_neq by done.
      apply IH.
      * unfold assign, reaches_proto_accessor.
        apply String.eqb_neq in Hne. by rewrite Hne.
      * by rewrite own_property_assign_other.
Qed.

(** The own properties of the object [getResponseHeadersList] builds: a
    name of the list other than [__proto__] holds the value the handle
    reports, and a name that is not in the list is no property. *)
Lemma getResponseHeadersList_lookup x headersList name :
  name ≠ "__proto__" →
  own_property name (own (getResponseHeadersList x headersList))
  = if bool_decide (name ∈ headersList) then Some (getResponseHeader x name)
    else None.
Proof.
  intros Hne. unfold getResponseHeadersList.
  by rewrite getResponseHeadersList_loop_lookup by (by left).
Qed.

(** The name [__proto__] is a property of that object only when the
    handle reports [null] for it and the list holds it twice. *)
Lemma getResponseHeadersList_proto x headersList :
  own_property "__proto__" (own (getResponseHeadersList x headersList))
  = match getResponseHeader x "__proto__" with
    | Some _ => None
    | None =>
        if (2 <=? count_occ String.string_dec headersList "__proto__")%nat
        then Some None
        else None
    end.
Proof.
  unfold getResponseHeadersList. by apply getResponseHeadersList_loop_proto.
Qed.

(** For names that are neither array indices nor [__proto__], each given
    once, the properties are created one after the other. *)
Lemma getResponseHeadersList_loop_in_order x headers headersList :
  NoDup headersList →
  (∀ name, name ∈ headersList →
     name ≠ "__proto__" ∧ array_index name = None
     ∧ own_property name (own headers) = None) →
  getResponseHeadersList_loop x headers headersList
  = {| inherits := inherits headers;
       own := own headers
              ++ map (λ name, (name, getResponseHeader x name)) headersList |}.
Proof.
  revert headers. induction headersList as [|header rest IH]; intros headers Hnd Hall.
  - cbn. rewrite List.app_nil_r. by destruct headers.
  - apply NoDup_cons in Hnd as [Hout Hnd].
    destruct (Hall header) as (Hne & Hidx & Hown); [by left|].
    cbn [getResponseHeadersList_loop map].
    assert (assign header (getResponseHeader x header) headers
            = {| inherits := inherits headers;
                 own := own headers ++ [(header, getResponseHeader x header)] |})
      as ->.
    { unfold assign, reaches_proto_accessor.
      apply String.eqb_neq in Hne. rewrite Hne. cbn [andb].
      by rewrite define_property_new. }
    rewrite IH; [cbn [inherits own]; by rewrite <- List.app_assoc | done |].
    intros name Hin. destruct (Hall name) as (Hne' & Hidx' & Hown'); [by right|].
    split; [done|]. split; [done|]. cbn [own].
    rewrite own_property_app, Hown'. cbn [own_property].
    destruct (String.eqb_spec header name) as [->|?]; [done|done].
Qed.

Section Request.
Context `{Platform}.

(** *** The three outcomes of [onLoad] *)

Lemma onLoad_status_outside now evt s :
  status (target evt) < 200 ∨ 300 ≤ status (target evt) →
  onLoad now evt s
  = notify (OnError (ThrownRequestError
              (RequestError (Options.url (vars s)) (OfXhr (target evt))
                 (statusText (target evt)) JNull))) s.
Proof.
  intros Hst%outside_2xx. unfold onLoad. cbn zeta. by rewrite Hst.
Qed.

Lemma onLoad_null now evt s :
  200 ≤ status (target evt) < 300 →
  null_payload (decode (Options.format (vars s)) (target evt)) = true →
  onLoad now evt s
  = notify (OnError (ThrownRequestError
              (RequestError (Options.url (vars s)) (OfXhr (target evt))
                 (null_response_message (Options.format (vars s))) JNull))) s.
Proof.
  intros Hst%inside_2xx Hnull. unfold onLoad. cbn zeta. by rewrite Hst, Hnull.
Qed.

Lemma onLoad_bare now evt s :
  200 ≤ status (target evt) < 300 →
  null_payload (decode (Options.format (vars s)) (target evt)) = false →
  Options.withMetadata (vars s) = false →
  onLoad now evt s
  = notify OnCompleted
      (notify (OnNext (Bare (decode (Options.format (vars s)) (target evt)))) s).
Proof.
  intros Hst%inside_2xx Hnull Hmd. unfold onLoad. cbn zeta.
  by rewrite Hst, Hnull, Hmd.
Qed.

Lemma onLoad_metadata now evt s :
  200 ≤ status (target evt) < 300 →
  null_payload (decode (Options.format (vars s)) (target evt)) = false →
  Options.withMetadata (vars s) = true →
  onLoad now evt s
  = notify OnCompleted
      (notify (OnNext (WithMetadata
         {| md_blob := decode (Options.format (vars s)) (target evt);
            md_size := total evt;
            md_duration := now - sent s;
            md_headers :=
              match Options.responseHeaders (vars s) with
              | Some headersList => Some (getResponseHeadersList (target evt) headersList)
              | None => None
              end;
            md_url := if String.eqb (responseURL (target evt)) EmptyString
                      then Options.url (vars s) else responseURL (target evt);
            md_xhr := target evt |})) s).
Proof.
  intros Hst%inside_2xx Hnull Hmd. unfold onLoad. cbn zeta.
  by rewrite Hst, Hnull, Hmd.
Qed.

(** [onLoad] and [onError] leave the handle and the variable [xhr] as
    they are. *)
Lemma onLoad_frame now evt s :
  handle (onLoad now evt s) = handle s ∧ xhr (onLoad now evt s) = xhr s
  ∧ vars (onLoad now evt s) = vars s.
Proof.
  unfold onLoad. cbn zeta.
  destruct (_ || _); [done|]. destruct (null_payload _); [done|].
  destruct (Options.withMetadata _); done.
Qed.

(** The load event reaches [onLoad] on a subscription that has started. *)
Lemma transport_load_subscribe options t0 r total now :
  transport_load r total now (subscribe options t0)
  = onLoad now
      {| target := completed r (handle (subscribe options t0)); total := total |}
      (set_handle (completed r (handle (subscribe options t0)))
         (subscribe options t0)).
Proof.
  unfold transport_load. cbn zeta.
  assert (listening "load" the_onLoad (completed r (handle (subscribe options t0)))
          = true) as ->; [|done].
  unfold listening. rewrite calls_completed.
  apply (listening_subscribe options t0).
Qed.

Lemma transport_error_subscribe options t0 :
  transport_error (subscribe options t0)
  = onError {| target := failed (handle (subscribe options t0)); total := 0 |}
      (set_handle (failed (handle (subscribe options t0))) (subscribe options t0)).
Proof.
  unfold transport_error. cbn zeta.
  assert (listening "error" the_onError (failed (handle (subscribe options t0)))
          = true) as ->; [|done].
  apply (listening_subscribe options t0).
Qed.

End Request.

(** ** The completion handler *)

Section Completion.
Context `{Platform}.

(** C1: whatever the options (any format), when the load event fires with
    a status outside [200, 300) the observer receives one notification
    and no other: an error, which is the [RequestError] built from the
    URL, the handle and the status text of the reply.  Its code is the
    status of the reply; the status text is the message the error is
    built with, which the constructor places between [request: ] and the
    URL in parentheses.  No value is delivered. *)
Theorem load_outside_2xx_is_one_RequestError options t0 r total now :
  reply_status r < 200 ∨ 300 ≤ reply_status r →
  let s := transport_load r total now (subscribe options t0) in
  ∃ e,
    observer s = [OnError (ThrownRequestError e)]
    ∧ e = RequestError (Options.url options) (OfXhr (handle s))
            (reply_statusText r) JNull
    ∧ re_code e = JNum (Int (reply_status r))
    ∧ re_message e
      = "request: " +:+ reply_statusText r +:+ " (" +:+ Options.url options +:+ ")"
    ∧ (∀ v, OnNext v ∉ observer s).
Proof.
  intros Hst s. subst s. rewrite transport_load_subscribe.
  rewrite onLoad_status_outside by exact Hst.
  eexists. split; [reflexivity|]. split; [reflexivity|].
  split; [reflexivity|]. split; [reflexivity|].
  intros v Hin. cbn in Hin. apply list_elem_of_singleton in Hin. discriminate.
Qed.

(** C5: with the format [document] the handle is given the response type
    [text] (the response type is never [document]), and on a reply inside
    [200, 300) the payload delivered is the response text parsed with the
    type [text/xml], whatever else the reply holds; with every format, a
    payload that is [null] after decoding gives one error notification,
    the [RequestError] of the null response, and no value. *)
Theorem document_is_parsed_from_text_and_null_is_an_error options t0 r total now :
  let s0 := subscribe options t0 in
  let x := completed r (handle s0) in
  let s := transport_load r total now s0 in
  (Options.format options = Some "document" →
   responseType (handle s0) = "text"
   ∧ decode (Options.format options) x
     = parseFromString (reply_responseText r) "text/xml"
   ∧ (200 ≤ reply_status r < 300 →
      null_payload (parseFromString (reply_responseText r) "text/xml") = false →
      Options.withMetadata options = false →
      observer s
      = [OnNext (Bare (parseFromString (reply_responseText r) "text/xml"));
         OnCompleted]))
  ∧ responseType (handle s0) ≠ "document"
  ∧ (200 ≤ reply_status r < 300 →
     null_payload (decode (Options.format options) x) = true →
     observer s
     = [OnError (ThrownRequestError
           (RequestError (Options.url options) (OfXhr x)
              ("null response with format "
               +:+ quoted (opt_template (Options.format options))
               +:+ " (error while parsing or wrong content-type)") JNull))]
     ∧ (∀ v, OnNext v ∉ observer s)).
Proof.
  intros s0 x s. split; [|split].
  - intros Hf.
    assert (decode (Options.format options) x
            = parseFromString (reply_responseText r) "text/xml") as Hdecode.
    { rewrite Hf. unfold decode. cbn.
      by destruct (parseFromString _ _) as [[]| |]. }
    split; [|split; [exact Hdecode|]].
    + subst s0. unfold subscribe. cbn [handle]. rewrite Hf. cbn.
      destruct (Options.headers options);
        by rewrite ?responseType_set_request_headers.
    + intros Hst Hnull Hmd. subst s x s0. rewrite transport_load_subscribe.
      rewrite onLoad_bare; [| done | | done].
      * rewrite vars_set_handle, vars_subscribe. cbn [target].
        by rewrite Hdecode.
      * rewrite vars_set_handle, vars_subscribe. cbn [target].
        by rewrite Hdecode.
  - subst s0. unfold subscribe. cbn [handle].
    assert (∀ x, responseType
              (call (XSend (Options.data options))
                 (call (XAddEventListener "error" the_onError false)
                    (call (XAddEventListener "load" the_onLoad false)
                       match Options.headers options with
                       | Some headers => set_request_headers headers x
                       | None => x
                       end))) = responseType x) as Hty.
    { intros x'. destruct (Options.headers options); cbn;
        by rewrite ?responseType_set_request_headers. }
    rewrite Hty.
    destruct (opt_is (Options.format options) "document") eqn:Hdoc; [done|].
    cbn. unfold opt_or. destruct (opt_truthy _); [|done].
    destruct (Options.format options) as [f|]; [|done]. cbn in *.
    intros ->. by rewrite String.eqb_refl in Hdoc.
  - intros Hst Hnull. subst s x s0. rewrite transport_load_subscribe.
    rewrite onLoad_null by done. split; [done|].
    intros v Hin. cbn in Hin. apply list_elem_of_singleton in Hin. discriminate.
Qed.

(** C9: on a reply inside [200, 300) whose payload is not [null]: with
    [withMetadata] the observer receives one record and the completion;
    the [headers] of the record are absent when no list of names was
    given.  With a list, every name of the list other than [__proto__] is
    an own property holding the value the transport reports for it, and
    no name outside the list is a property.  The name [__proto__] is the
    case the code misses: listed once, it is no property of the record,
    whatever the transport reports for it; it becomes one only when the
    transport reports [null] and the list holds it twice.  For names that
    are neither [__proto__] nor array indices, each listed once, the
    properties are the names of the list in the order of the list.
    Without [withMetadata] the observer receives the payload alone, and
    the completion. *)
Theorem success_emits_outcome_or_bare_payload options t0 r total now :
  200 ≤ reply_status r < 300 →
  let s0 := subscribe options t0 in
  let x := completed r (handle s0) in
  let s := transport_load r total now s0 in
  null_payload (decode (Options.format options) x) = false →
  (Options.withMetadata options = true →
   ∃ m,
     observer s = [OnNext (WithMetadata m); OnCompleted]
     ∧ md_blob m = decode (Options.format options) x
     ∧ md_size m = total ∧ md_duration m = now - t0 ∧ md_xhr m = x
     ∧ (Options.responseHeaders options = None → md_headers m = None)
     ∧ (∀ names, Options.responseHeaders options = Some names →
          ∃ headers,
            md_headers m = Some headers
            ∧ (∀ name, name ∈ names → name ≠ "__proto__" →
                 own_property name (own headers) = Some (reply_header r name))
            ∧ (∀ name, name ∉ names → own_property name (own headers) = None)
            ∧ own_property "__proto__" (own headers)
              = match reply_header r "__proto__" with
                | Some _ => None
                | None =>
                    if (2 <=? count_occ String.string_dec names "__proto__")%nat
                    then Some None
                    else None
                end
            ∧ (NoDup names →
               (∀ name, name ∈ names →
                  name ≠ "__proto__" ∧ array_index name = None) →
               headers
               = {| inherits := true;
                    own := map (λ name, (name, reply_header r name)) names |})))
  ∧ (Options.withMetadata options = false →
     observer s = [OnNext (Bare (decode (Options.format options) x)); OnCompleted]).
Proof.
  intros Hst s0 x s Hnull. subst s x s0. rewrite transport_load_subscribe. split.
  - intros Hmd. rewrite onLoad_metadata by done.
    eexists. split; [reflexivity|]. cbn.
    split; [done|]. split; [done|]. split; [done|]. split; [done|]. split.
    + by intros ->.
    + intros names ->. eexists. split; [reflexivity|]. split; [|split; [|split]].
      * intros name Hin Hne. rewrite getResponseHeadersList_lookup by done.
        by rewrite bool_decide_eq_true_2.
      * intros name Hout.
        destruct (String.eqb_spec name "__proto__") as [->|Hne].
        -- rewrite getResponseHeadersList_proto.
           rewrite list_elem_of_In, (count_occ_not_In String.string_dec) in Hout.
           rewrite Hout. cbn. by destruct (reply_header r "__proto__").
        -- rewrite getResponseHeadersList_lookup by done.
           by rewrite bool_decide_eq_false_2.
      * by rewrite getResponseHeadersList_proto.
      * intros Hnd Hall. unfold getResponseHeadersList.
        rewrite getResponseHeadersList_loop_in_order; [done|done|].
        intros name Hin. destruct (Hall name Hin). done.
  - intros Hmd. by rewrite onLoad_bare.
Qed.

End Completion.

(** C4: with the format [json], a payload that is still a text goes
    through [toJSONForIE]: it is what [JSON.parse] returns, and [null]
    when [JSON.parse] throws, no exception leaving the call.  That [null]
    then takes the way of every null payload: the observer receives one
    error, the [RequestError] whose message names the format [json].  The
    text [{'a':1}] (with double quotes) reads as the object [{a: 1}] and
    the text [not json] as [null]. *)
Theorem json_text_is_parsed_and_malformed_is_null `{Platform}
    options t0 r total now text :
  Options.format options = Some "json" →
  reply_response r = Value (JStr text) →
  let s0 := subscribe options t0 in
  let x := completed r (handle s0) in
  let s := transport_load r total now s0 in
  decode (Options.format options) x = Value (toJSONForIE text)
  ∧ (∀ v, JSON_parse text = Some v → toJSONForIE text = v)
  ∧ (JSON_parse text = None →
     toJSONForIE text = JNull
     ∧ (200 ≤ reply_status r < 300 →
        ∃ e,
          observer s = [OnError (ThrownRequestError e)]
          ∧ e = RequestError (Options.url options) (OfXhr x)
                  ("null response with format " +:+ quoted "json"
                   +:+ " (error while parsing or wrong content-type)") JNull
          ∧ re_message e
            = "request: null response with format " +:+ quoted "json"
              +:+ " (error while parsing or wrong content-type) ("
              +:+ Options.url options +:+ ")"))
  ∧ @toJSONForIE reference_platform example_json = JObj [("a", JNum (Int 1))]
  ∧ @toJSONForIE reference_platform "not json" = JNull.
Proof.
  intros Hf Hr s0 x s.
  assert (decode (Options.format options) x = Value (toJSONForIE text)) as Hdecode.
  { rewrite Hf. unfold decode. cbn. subst x. cbn. by rewrite Hr. }
  split; [exact Hdecode|]. split; [|split; [|split]].
  - intros v Hv. unfold toJSONForIE. by rewrite Hv.
  - intros Hbad.
    assert (toJSONForIE text = JNull) as Hnull.
    { unfold toJSONForIE. by rewrite Hbad. }
    split; [exact Hnull|]. intros Hst.
    subst s x s0. rewrite transport_load_subscribe.
    rewrite onLoad_null; [| done |].
    + eexists. split; [reflexivity|].
      rewrite vars_set_handle, vars_subscribe, Hf. split; [reflexivity|].
      cbn. unfold null_response_message. cbn.
      by rewrite !string_app_assoc.
    + rewrite vars_set_handle, vars_subscribe. cbn [target].
      by rewrite Hdecode, Hnull.
  - reflexivity.
  - reflexivity.
Qed.

(** ** Teardown *)

(** After the three calls of the teardown neither listener of the file is
    registered. *)
Lemma listening_after_detach type l x :
  listening type l
    (xhr_abort
       (call (XRemoveEventListener "error" the_onError)
          (call (XRemoveEventListener "load" the_onLoad) x)))
  = listening type l x
    && negb (String.eqb "load" type && listener_eqb the_onLoad l)
    && negb (String.eqb "error" type && listener_eqb the_onError l).
Proof.
  unfold listening. cbn [calls xhr_abort network_error call set_readyState].
  rewrite <- !List.app_assoc, listening_from_app. reflexivity.
Qed.

Lemma teardown_live s :
  xhr s = to_handle →
  teardown s
  = Return (set_xhr null
      (if (0 <? readyState (handle s)) && (readyState (handle s) <? 4) then
         set_handle
           (xhr_abort
              (call (XRemoveEventListener "error" the_onError)
                 (call (XRemoveEventListener "load" the_onLoad) (handle s)))) s
       else s)).
Proof. intros Hx. unfold teardown. by rewrite Hx. Qed.

Lemma in_flight_iff (rs : Z) : (0 <? rs) && (rs <? 4) = true ↔ 0 < rs < 4.
Proof. rewrite andb_true_iff, !Z.ltb_lt. tauto. Qed.

Lemma readyState_transport_load `{Platform} r total now s :
  handle (transport_load r total now s) = completed r (handle s)
  ∧ xhr (transport_load r total now s) = xhr s.
Proof.
  unfold transport_load. cbn zeta. destruct (listening _ _ _); [|done].
  destruct (onLoad_frame now {| target := completed r (handle s); total := total |}
              (set_handle (completed r (handle s)) s)) as (-> & -> & _). done.
Qed.

Lemma readyState_transport_error s :
  handle (transport_error s) = failed (handle s)
  ∧ xhr (transport_error s) = xhr s.
Proof. unfold transport_error. cbn zeta. by destruct (listening _ _ _). Qed.

(** C2: on a subscription whose variable [xhr] still refers to the handle,
    the teardown returns, with the variable [xhr] cleared and nothing
    delivered to the observer.  When the ready state is strictly between 0
    and 4 it makes three calls on the handle, in this order: the removal of
    the load listener, the removal of the error listener, one abort; after
    them neither listener is registered.  In every other ready state it
    makes no call and leaves the handle as it is.  After the load event or
    the error event, which the transport fires on a handle that is done
    (4), it therefore makes no call: no abort. *)
Theorem teardown_aborts_exactly_in_flight `{Platform} s :
  xhr s = to_handle →
  (∃ s',
     teardown s = Return s' ∧ xhr s' = null ∧ observer s' = observer s
     ∧ (0 < readyState (handle s) < 4 →
        calls (handle s')
        = calls (handle s)
          ++ [XRemoveEventListener "load" the_onLoad;
              XRemoveEventListener "error" the_onError;
              XAbort]
        ∧ listening "load" the_onLoad (handle s') = false
        ∧ listening "error" the_onError (handle s') = false)
     ∧ (¬ 0 < readyState (handle s) < 4 → handle s' = handle s))
  ∧ (∀ r total now,
       ∃ s',
         teardown (transport_load r total now s) = Return s' ∧ xhr s' = null
         ∧ handle s' = handle (transport_load r total now s)
         ∧ observer s' = observer (transport_load r total now s))
  ∧ (∃ s',
       teardown (transport_error s) = Return s' ∧ xhr s' = null
       ∧ handle s' = handle (transport_error s)
       ∧ observer s' = observer (transport_error s)).
Proof.
  intros Hx. split; [|split].
  - rewrite (teardown_live s Hx). eexists. split; [reflexivity|].
    destruct ((0 <? readyState (handle s)) && (readyState (handle s) <? 4))
      eqn:Hrs.
    + split; [done|]. split; [done|]. split.
      * intros _. cbn [handle set_xhr set_handle]. split; [|split].
        -- cbn. by rewrite <- !List.app_assoc.
        -- rewrite listening_after_detach. cbn. by rewrite andb_false_r.
        -- rewrite listening_after_detach. cbn. by rewrite andb_false_r.
      * intros Hn. by apply in_flight_iff in Hrs.
    + split; [done|]. split; [done|]. split; [|done].
      intros Hin%in_flight_iff. congruence.
  - intros r total now.
    destruct (readyState_transport_load r total now s) as [Hh Hv].
    rewrite teardown_live by (by rewrite Hv). rewrite Hh.
    cbn [readyState completed Z.ltb Z.compare andb].
    eexists. split; [reflexivity|]. done.
  - destruct (readyState_transport_error s) as [Hh Hv].
    rewrite teardown_live by (by rewrite Hv). rewrite Hh.
    cbn [readyState failed Z.ltb Z.compare andb].
    eexists. split; [reflexivity|]. done.
Qed.

(** The teardown is not to be run twice: the second run destructures
    [null]. *)
Lemma teardown_twice s s' :
  teardown s = Return s' → teardown s' = Throw ThrownTypeError.
Proof.
  unfold teardown. destruct (xhr s); [discriminate|]. by intros [= <-].
Qed.

Lemma listening_completed type l r x :
  listening type l (completed r x) = listening type l x.
Proof. reflexivity. Qed.

Lemma listening_failed type l x :
  listening type l (failed x) = listening type l x.
Proof. reflexivity. Qed.

(** Once the teardown has run in flight, the events of the transport reach
    no listener: nothing is delivered after the unsubscription. *)
Lemma no_notification_after_unsubscribe `{Platform} s s' r total now :
  xhr s = to_handle → 0 < readyState (handle s) < 4 →
  teardown s = Return s' →
  observer (transport_load r total now s') = observer s
  ∧ observer (transport_error s') = observer s.
Proof.
  intros Hx Hrs. rewrite (teardown_live s Hx).
  apply in_flight_iff in Hrs. rewrite Hrs. intros [= <-].
  unfold transport_load, transport_error. cbn zeta.
  cbn [handle set_xhr set_handle].
  rewrite listening_completed, listening_failed, !listening_after_detach.
  cbn. by rewrite !andb_false_r.
Qed.

(** ** The failure values *)

(** An error built from the handle has the status of the handle for code,
    the URL and a message. *)
Lemma RequestError_of_handle url x message :
  re_code (RequestError url (OfXhr x) message JNull) = JNum (Int (status x))
  ∧ re_url (RequestError url (OfXhr x) message JNull) = url
  ∧ re_message (RequestError url (OfXhr x) message JNull)
    = "request: " +:+ message +:+ " (" +:+ url +:+ ")".
Proof. done. Qed.

(** Every error [onLoad] delivers has the status of the handle for code. *)
Lemma onLoad_errors_carry_the_status `{Platform} now evt s e :
  OnError (ThrownRequestError e) ∈ observer (onLoad now evt s) →
  OnError (ThrownRequestError e) ∈ observer s
  ∨ (re_code e = JNum (Int (status (target evt)))
     ∧ re_url e = Options.url (vars s)).
Proof.
  unfold onLoad. cbn zeta.
  destruct (_ || _).
  { cbn. intros [?|Hin]%elem_of_app; [by left|].
    apply list_elem_of_singleton in Hin. injection Hin as ->. by right. }
  destruct (null_payload _).
  { cbn. intros [?|Hin]%elem_of_app; [by left|].
    apply list_elem_of_singleton in Hin. injection Hin as ->. by right. }
  destruct (Options.withMetadata _); cbn;
    intros [[?|Hin]%elem_of_app|Hin]%elem_of_app; try (by left);
    apply list_elem_of_singleton in Hin; discriminate.
Qed.

(** C8, on the error event: the observer receives one error, a
    [RequestError] with the URL of the request and the message of the
    error event; it is built from the event, not from the handle, so that
    its code is [undefined] and no number. *)
Theorem error_event_RequestError_code_is_undefined options t0 :
  let s := transport_error (subscribe options t0) in
  ∃ e event,
    observer s = [OnError (ThrownRequestError e)]
    ∧ re_url e = Options.url options
    ∧ re_message e = "request: error event (" +:+ Options.url options +:+ ")"
    ∧ re_xhr e = OfEvent event
    ∧ re_code e = JUndefined
    ∧ ∀ n, re_code e ≠ JNum n.
Proof.
  intros s. subst s. rewrite transport_error_subscribe. unfold onError.
  eexists. eexists. split; [reflexivity|]. done.
Qed.

(** ** The remote-call adapter *)

(** A replacement without dollar is inserted as it is. *)
Lemma GetSubstitution_plain matched before after replacement :
  occurs "$" replacement = false →
  GetSubstitution matched before after replacement = replacement.
Proof.
  induction replacement as [|c r IH]; [done|].
  cbn [occurs]. intros [Hc Hr]%orb_false_iff.
  specialize (IH Hr).
  destruct c as [[] [] [] [] [] [] [] []]; try discriminate Hc;
    cbn [GetSubstitution]; by rewrite IH.
Qed.

Lemma split_first_METHOD_CALL_XML :
  split_first "{payload}" METHOD_CALL_XML = Some (envelope_open, envelope_close).
Proof. vm_compute. reflexivity. Qed.

(** The body of a remote call: the serialization between the two parts of
    the envelope, as long as it holds no dollar. *)
Lemma METHOD_CALL_XML_replace xml :
  occurs "$" xml = false →
  string_replace METHOD_CALL_XML "{payload}" xml
  = envelope_open +:+ xml +:+ envelope_close.
Proof.
  intros Hd. unfold string_replace. rewrite split_first_METHOD_CALL_XML.
  by rewrite GetSubstitution_plain.
Qed.

(** A dollar in the serialization is read as a replacement pattern. *)
Example METHOD_CALL_XML_replace_dollar :
  string_replace METHOD_CALL_XML "{payload}" ((@objToXML reference_platform) (JObj [("a", JStr "$$ and $&")]))
  = envelope_open +:+ "<a>$ and {payload}amp;</a>" +:+ envelope_close.
Proof. vm_compute. reflexivity. Qed.

(** What [request] does with the options of a remote call: the four
    assignments on the object, then the producer of the object mapped
    through [RestCallResult]. *)
Lemma request_rest_call_method `{Platform} fuel options (h : heap) o :
  h !! options = Some o →
  opt_is (Options.format o) "rest-call-method" = true →
  request (S (S fuel)) options h
  = Some (<[options :=
             Options.make (Options.url o) (Some "POST")
               (JStr (string_replace METHOD_CALL_XML "{payload}"
                        (objToXML (Options.data o))))
               (Some [("Content-Type", "application/xml")])
               (Some "document") (Options.withMetadata o)
               (Options.responseHeaders o) (Options.ScriptInfo o)]> h,
          MapRestCallResult (Create options) options).
Proof.
  intros Ho Hf. cbn [request]. rewrite Ho, Hf. unfold restCallMethod.
  rewrite !lookup_alter_eq, Ho. cbn [fmap option_fmap option_map].
  rewrite !lookup_alter_eq, Ho. cbn. f_equal. f_equal.
  apply map_eq. intros i. destruct (decide (i = options)) as [->|Hne].
  - rewrite lookup_insert_eq, !lookup_alter_eq, Ho. reflexivity.
  - rewrite lookup_insert_ne by done. by rewrite !lookup_alter_ne.
Qed.

(** The other formats leave the store alone. *)
Lemma request_create `{Platform} fuel options (h : heap) o :
  h !! options = Some o →
  opt_is (Options.format o) "rest-call-method" = false →
  request (S fuel) options h = Some (h, Create options).
Proof. intros Ho Hf. cbn [request]. by rewrite Ho, Hf. Qed.

(** Two rounds are enough: [request] returns a producer for every options
    object of the store. *)
Lemma request_returns `{Platform} fuel options (h : heap) o :
  h !! options = Some o →
  ∃ h' producer, request (S (S fuel)) options h = Some (h', producer).
Proof.
  intros Ho.
  destruct (opt_is (Options.format o) "rest-call-method") eqn:Hf.
  - rewrite (request_rest_call_method fuel options h o Ho Hf). eauto.
  - rewrite (request_create (S fuel) options h o Ho Hf). eauto.
Qed.

(** C3, as the claim states it, fails: after the call the object the
    caller handed over holds the method [POST], the header, the XML body
    and the format [document], where it held the caller's data and the
    format of the remote call. *)
Lemma restCallMethod_overwrites_the_callers_object :
  ∃ h' producer,
    (@request reference_platform) 2 0 {[0%nat := example_call]} = Some (h', producer)
    ∧ h' !! 0%nat
      = Some (Options.make example_url (Some "POST")
                (JStr (envelope_open +:+ "<a>v</a>" +:+ envelope_close))
                (Some [("Content-Type", "application/xml")])
                (Some "document") false None (Some "GetAccount"))
    ∧ h' !! 0%nat ≠ ({[0%nat := example_call]} : heap) !! 0%nat.
Proof.
  eexists. eexists. split.
  - apply (request_rest_call_method 0 0%nat {[0%nat := example_call]} example_call).
    + apply lookup_singleton_eq.
    + reflexivity.
  - rewrite lookup_insert_eq, lookup_singleton_eq. split; [reflexivity|].
    discriminate.
Qed.

(** C3, amended: [request] on the options of a remote call returns, and
    the object the caller handed over is overwritten in place: its method
    is [POST], its headers the single [Content-Type: application/xml], its
    data the XML serialization of the former data between the two parts of
    the [RestCallMethod] envelope (the serialization holding no dollar),
    its format [document]; its other properties and the other objects of
    the store are as before; the producer reads that same object. *)
Theorem restCallMethod_overwrites_options_in_place `{Platform} fuel options (h : heap) o :
  h !! options = Some o →
  Options.format o = Some "rest-call-method" →
  occurs "$" (objToXML (Options.data o)) = false →
  ∃ h' o',
    request (S (S fuel)) options h
    = Some (h', MapRestCallResult (Create options) options)
    ∧ h' !! options = Some o'
    ∧ Options.method o' = Some "POST"
    ∧ Options.headers o' = Some [("Content-Type", "application/xml")]
    ∧ Options.data o'
      = JStr (envelope_open +:+ objToXML (Options.data o) +:+ envelope_close)
    ∧ Options.format o' = Some "document"
    ∧ Options.url o' = Options.url o
    ∧ Options.withMetadata o' = Options.withMetadata o
    ∧ Options.responseHeaders o' = Options.responseHeaders o
    ∧ Options.ScriptInfo o' = Options.ScriptInfo o
    ∧ (∀ other, other ≠ options → h' !! other = h !! other).
Proof.
  intros Ho Hf Hd. eexists. eexists. split.
  - apply request_rest_call_method; [exact Ho|]. by rewrite Hf.
  - rewrite lookup_insert_eq. split; [reflexivity|]. cbn.
    rewrite METHOD_CALL_XML_replace by exact Hd.
    repeat (split; [reflexivity|]).
    intros other Hne. by rewrite lookup_insert_ne.
Qed.

Lemma restCallMethod_overwrites_options_in_place_witness :
  ({[0%nat := example_call]} : heap) !! 0%nat = Some example_call
  ∧ Options.format example_call = Some "rest-call-method"
  ∧ occurs "$" ((@objToXML reference_platform) (Options.data example_call)) = false
  ∧ ∃ h' o',
      (@request reference_platform) 2 0 {[0%nat := example_call]}
      = Some (h', MapRestCallResult (Create 0) 0)
      ∧ h' !! 0%nat = Some o'
      ∧ Options.method o' = Some "POST"
      ∧ Options.data o' = JStr (envelope_open +:+ "<a>v</a>" +:+ envelope_close)
      ∧ Options.format o' = Some "document".
Proof.
  assert (({[0%nat := example_call]} : heap) !! 0%nat = Some example_call) as Ho
    by apply lookup_singleton_eq.
  split; [exact Ho|]. split; [reflexivity|]. split; [reflexivity|].
  destruct (@restCallMethod_overwrites_options_in_place reference_platform 0 0%nat
              {[0%nat := example_call]} example_call Ho eq_refl eq_refl)
    as (h' & o' & Hreq & Hlook & Hm & _ & Hdata & Hfmt & _).
  exists h', o'. repeat split; assumption.
Defined.

(** ** Instances on the reference platform *)

Lemma load_outside_2xx_is_one_RequestError_witness :
  (404 < 200 ∨ 300 ≤ 404)
  ∧ ∃ e,
      observer (@transport_load reference_platform
                  (example_reply 404 "Not Found" (Value JNull) EmptyString) 0 5
                  (subscribe (example_options (Some "json") false None) 0))
      = [OnError (ThrownRequestError e)]
      ∧ re_code e = JNum (Int 404)
      ∧ re_message e = "request: Not Found (http://host/ws)".
Proof.
  assert (404 < 200 ∨ 300 ≤ 404) as Hst by (right; lia).
  split; [exact Hst|].
  destruct (@load_outside_2xx_is_one_RequestError reference_platform
              (example_options (Some "json") false None) 0
              (example_reply 404 "Not Found" (Value JNull) EmptyString) 0 5 Hst)
    as (e & Hobs & _ & Hcode & Hmsg & _).
  exists e. split; [exact Hobs|]. split; [exact Hcode|exact Hmsg].
Defined.

Lemma teardown_aborts_exactly_in_flight_witness :
  xhr (example_in_flight 3) = to_handle
  ∧ 0 < readyState (handle (example_in_flight 3)) < 4
  ∧ ∃ s',
      teardown (example_in_flight 3) = Return s' ∧ xhr s' = null
      ∧ calls (handle s')
        = [XOpen "GET" example_url true;
           XAddEventListener "load" the_onLoad false;
           XAddEventListener "error" the_onError false;
           XSend JNull;
           XRemoveEventListener "load" the_onLoad;
           XRemoveEventListener "error" the_onError;
           XAbort].
Proof.
  split; [reflexivity|].
  assert (0 < readyState (handle (example_in_flight 3)) < 4) as Hrs by (cbn; lia).
  split; [exact Hrs|].
  destruct (@teardown_aborts_exactly_in_flight reference_platform
              (example_in_flight 3) eq_refl)
    as ((s' & Hret & Hnull & _ & Hin & _) & _ & _).
  exists s'. split; [exact Hret|]. split; [exact Hnull|].
  exact (proj1 (Hin Hrs)).
Defined.

Lemma json_text_is_parsed_and_malformed_is_null_witness :
  Options.format (example_options (Some "json") false None) = Some "json"
  ∧ reply_response (example_reply 200 "OK" (Value (JStr "not json")) EmptyString)
    = Value (JStr "not json")
  ∧ @JSON_parse reference_platform "not json" = None
  ∧ 200 ≤ 200 < 300
  ∧ ∃ e,
      observer (@transport_load reference_platform
                  (example_reply 200 "OK" (Value (JStr "not json")) EmptyString) 0 5
                  (subscribe (example_options (Some "json") false None) 0))
      = [OnError (ThrownRequestError e)]
      ∧ re_message e
        = "request: null response with format " +:+ quoted "json"
          +:+ " (error while parsing or wrong content-type) (http://host/ws)".
Proof.
  split; [reflexivity|]. split; [reflexivity|]. split; [reflexivity|].
  assert (200 ≤ 200 < 300) as Hst by lia. split; [exact Hst|].
  destruct (@json_text_is_parsed_and_malformed_is_null reference_platform
              (example_options (Some "json") false None) 0
              (example_reply 200 "OK" (Value (JStr "not json")) EmptyString) 0 5
              "not json" eq_refl eq_refl)
    as (_ & _ & Hbad & _).
  destruct (Hbad eq_refl) as (_ & Herr).
  destruct (Herr Hst) as (e & Hobs & _ & Hmsg).
  exists e. split; [exact Hobs|exact Hmsg].
Defined.

Lemma document_is_parsed_from_text_and_null_is_an_error_witness :
  (Options.format (example_options (Some "document") false None) = Some "document"
   ∧ responseType (handle (subscribe (example_options (Some "document") false None) 0))
     = "text"
   ∧ @decode reference_platform (Some "document")
       (completed (example_reply 200 "OK" (Value JNull) "<a>t</a>")
          (handle (subscribe (example_options (Some "document") false None) 0)))
     = Doc (Document [Element "a" [TextNode "t"]]))
  ∧ (200 ≤ 200 < 300
     ∧ null_payload
         (@decode reference_platform (Some "arraybuffer")
            (completed (example_reply 200 "OK" (Value JNull) EmptyString)
               (handle (subscribe (example_options (Some "arraybuffer") false None) 0))))
       = true
     ∧ ∃ e,
         observer (@transport_load reference_platform
                     (example_reply 200 "OK" (Value JNull) EmptyString) 0 5
                     (subscribe (example_options (Some "arraybuffer") false None) 0))
         = [OnError (ThrownRequestError e)]
         ∧ re_message e
           = "request: null response with format " +:+ quoted "arraybuffer"
             +:+ " (error while parsing or wrong content-type) (http://host/ws)").
Proof.
  split.
  - split; [reflexivity|].
    destruct (@document_is_parsed_from_text_and_null_is_an_error reference_platform
                (example_options (Some "document") false None) 0
                (example_reply 200 "OK" (Value JNull) "<a>t</a>") 0 5)
      as (Hdoc & _ & _).
    destruct (Hdoc eq_refl) as (Hty & Hdec & _).
    split; [exact Hty|]. exact Hdec.
  - assert (200 ≤ 200 < 300) as Hst by lia. split; [exact Hst|].
    split; [reflexivity|].
    destruct (@document_is_parsed_from_text_and_null_is_an_error reference_platform
                (example_options (Some "arraybuffer") false None) 0
                (example_reply 200 "OK" (Value JNull) EmptyString) 0 5)
      as (_ & _ & Hnull).
    destruct (Hnull Hst eq_refl) as [Hobs _].
    eexists. split; [exact Hobs|]. reflexivity.
Defined.

Lemma success_emits_outcome_or_bare_payload_witness :
  200 ≤ 200 < 300
  ∧ (∃ m,
       observer (@transport_load reference_platform
                   (example_reply 200 "OK" (Value (JStr "hello")) "hello") 12 5
                   (subscribe
                      (example_options None true (Some ["__proto__"; "X-Total"])) 2))
       = [OnNext (WithMetadata m); OnCompleted]
       ∧ md_blob m = Value (JStr "hello") ∧ md_size m = 12 ∧ md_duration m = 3
       ∧ md_headers m
         = Some {| inherits := false; own := [("X-Total", Some "42")] |}
       ∧ (∀ headers, md_headers m = Some headers →
            own_property "__proto__" (own headers) = None))
  ∧ observer (@transport_load reference_platform
                (example_reply 200 "OK" (Value (JStr "hello")) "hello") 12 5
                (subscribe
                   (example_options None false (Some ["__proto__"; "X-Total"])) 2))
    = [OnNext (Bare (Value (JStr "hello"))); OnCompleted].
Proof.
  assert (200 ≤ 200 < 300) as Hst by lia. split; [exact Hst|]. split.
  - destruct (@success_emits_outcome_or_bare_payload reference_platform
                (example_options None true (Some ["__proto__"; "X-Total"])) 2
                (example_reply 200 "OK" (Value (JStr "hello")) "hello") 12 5 Hst eq_refl)
      as [Hmd _].
    destruct (Hmd eq_refl) as (m & Hobs & Hblob & Hsize & Hdur & _ & _ & Hnames).
    destruct (Hnames ["__proto__"; "X-Total"] eq_refl)
      as (headers & Hh & _ & _ & Hproto & _).
    exists m. split; [exact Hobs|]. split; [exact Hblob|].
    split; [exact Hsize|]. split; [exact Hdur|]. split.
    + injection Hobs as <-. reflexivity.
    + intros headers' Hh'. rewrite Hh in Hh'. injection Hh' as <-. exact Hproto.
  - destruct (@success_emits_outcome_or_bare_payload reference_platform
                (example_options None false (Some ["__proto__"; "X-Total"])) 2
                (example_reply 200 "OK" (Value (JStr "hello")) "hello") 12 5 Hst eq_refl)
      as [_ Hbare].
    exact (Hbare eq_refl).
Defined.

(** ** Examples from end to end *)

(** The payload [{'a':1}] of a [json] request, left as a text by the
    transport, reaches the observer as the object [{a: 1}]. *)
Example json_request_delivers_the_object :
  observer (@transport_load reference_platform
              (example_reply 200 "OK" (Value (JStr example_json)) example_json) 7 5
              (subscribe (example_options (Some "json") false None) 0))
  = [OnNext (Bare (Value (JObj [("a", JNum (Int 1))]))); OnCompleted].
Proof. reflexivity. Qed.

(** A remote call answered with the status [-3]: the document delivered is
    mapped to the [RestCallMethodError] of code [-3]. *)
Example remote_call_negative_status :
  ∃ h',
    (@request reference_platform) 2 0 {[0%nat := example_call]}
    = Some (h', MapRestCallResult (Create 0) 0)
    ∧ ∃ o', h' !! 0%nat = Some o'
      ∧ ∃ v, observer (@transport_load reference_platform
                  (example_reply 200 "OK" (Value JNull)
                     "<RestCallResult><Status>-3</Status><Output/></RestCallResult>")
                  0 5 (subscribe o' 0))
             = [OnNext v; OnCompleted]
        ∧ @restCallMethod_map reference_platform o' v
          = Throw (ThrownRestCallMethodError
                     ((@RestCallMethodError reference_platform) example_url (Int (-3)) (Some "GetAccount") None)).
Proof.
  eexists. split.
  - apply (request_rest_call_method 0 0%nat {[0%nat := example_call]} example_call);
      [apply lookup_singleton_eq|reflexivity].
  - eexists. split; [apply lookup_insert_eq|].
    eexists. split; reflexivity.
Qed.

(** The body built for [example_call] is the envelope around one element,
    and reads back as such. *)
Example remote_call_body :
  ∃ h' producer o',
    (@request reference_platform) 2 0 {[0%nat := example_call]} = Some (h', producer)
    ∧ observable_subscribe producer h' 0 = Some (subscribe o' 0)
    ∧ Options.data o' = JStr (envelope_open +:+ "<a>v</a>" +:+ envelope_close)
    ∧ calls (handle (subscribe o' 0))
      = [XOpen "POST" example_url true;
         XSetRequestHeader "Content-Type" "application/xml";
         XAddEventListener "load" the_onLoad false;
         XAddEventListener "error" the_onError false;
         XSend (JStr (envelope_open +:+ "<a>v</a>" +:+ envelope_close))]
    ∧ responseType (handle (subscribe o' 0)) = "text"
    ∧ Reference.parseFromString (envelope_open +:+ "<a>v</a>" +:+ envelope_close)
        "text/xml"
      = Doc (Document [Element "RestCallMethod" [Element "a" [TextNode "v"]]]).
Proof.
  eexists. eexists. eexists. split.
  - apply (request_rest_call_method 0 0%nat {[0%nat := example_call]} example_call);
      [apply lookup_singleton_eq|reflexivity].
  - split.
    + unfold observable_subscribe. cbn [source_options].
      rewrite lookup_insert_eq. reflexivity.
    + repeat split; reflexivity.
Qed.

(** ** The reference platform reads the integers it prints *)

Lemma digit_char (d : N) :
  (d < 10)%N →
  Reference.is_digit (pretty_N_char d) = true
  ∧ Reference.digit_value (pretty_N_char d) = Z.of_N d
  ∧ Reference.is_space (pretty_N_char d) = false.
Proof.
  intros Hd.
  assert (d = 0 ∨ d = 1 ∨ d = 2 ∨ d = 3 ∨ d = 4 ∨ d = 5 ∨ d = 6 ∨ d = 7 ∨ d = 8 ∨ d = 9)%N
    as Hc by lia.
  destruct Hc as [->|[->|[->|[->|[->|[->|[->|[->|[->| ->]]]]]]]]]; done.
Qed.

(** Reading the digits of [x] shifts the number read so far and adds [x]. *)
Lemma digits_pretty_N_go x :
  ∃ k : Z, 0 ≤ k
    ∧ ∀ acc s, Reference.digits acc (pretty_N_go x s)
               = Reference.digits (acc * 10 ^ k + Z.of_N x) s.
Proof.
  induction (N.lt_wf_0 x) as [x _ IH].
  destruct (decide (x = 0)%N) as [->|Hx].
  - exists 0. split; [done|]. intros acc s. rewrite pretty_N_go_0. f_equal. lia.
  - destruct (IH (x `div` 10)%N) as (k & Hk & IHk).
    { apply N.div_lt; lia. }
    exists (k + 1). split; [lia|]. intros acc s.
    rewrite pretty_N_go_step by lia. rewrite IHk. cbn [Reference.digits].
    destruct (digit_char (x `mod` 10)%N) as (-> & -> & _).
    { apply N.mod_lt. lia. }
    f_equal. rewrite Z.pow_add_r by lia. change (10 ^ 1) with 10.
    pose proof (N.div_mod x 10 ltac:(lia)) as Hdm.
    assert (Z.of_N x = 10 * Z.of_N (x `div` 10) + Z.of_N (x `mod` 10)) as ->.
    { revert Hdm. generalize (x `div` 10)%N (x `mod` 10)%N. intros q m ->. lia. }
    lia.
Qed.

Lemma pretty_N_go_head x s :
  (0 < x)%N →
  ∃ c r, pretty_N_go x s = String c r
         ∧ Reference.is_digit c = true ∧ Reference.is_space c = false.
Proof.
  revert s. induction (N.lt_wf_0 x) as [x _ IH]. intros s Hx.
  rewrite pretty_N_go_step by done.
  destruct (decide (x `div` 10 = 0)%N) as [Hz|Hz].
  - rewrite Hz, pretty_N_go_0.
    destruct (digit_char (x `mod` 10)%N) as (? & _ & ?); [apply N.mod_lt; lia|].
    eauto.
  - apply IH; [apply N.div_lt; lia|by apply N.neq_0_lt_0].
Qed.

Lemma pretty_N_go_spaceless x s :
  Reference.spaceless s = true → Reference.spaceless (pretty_N_go x s) = true.
Proof.
  revert s. induction (N.lt_wf_0 x) as [x _ IH]. intros s Hs.
  destruct (decide (x = 0)%N) as [->|Hx]; [by rewrite pretty_N_go_0|].
  rewrite pretty_N_go_step by lia. apply IH; [apply N.div_lt; lia|].
  cbn. destruct (digit_char (x `mod` 10)%N) as (_ & _ & ->); [apply N.mod_lt; lia|].
  done.
Qed.

Lemma rev_app_rev_app a b :
  String.rev_app (String.rev_app a b) EmptyString = String.rev_app b a.
Proof.
  revert b. induction a as [|x a IH]; intros b; [done|]. cbn. by rewrite IH.
Qed.

Lemma rev_rev s : String.rev (String.rev s) = s.
Proof. unfold String.rev. by rewrite rev_app_rev_app. Qed.

Lemma spaceless_rev_app a b :
  Reference.spaceless (String.rev_app a b)
  = Reference.spaceless a && Reference.spaceless b.
Proof.
  revert b. induction a as [|x a IH]; intros b; [done|]. cbn. rewrite IH. cbn.
  destruct (Reference.is_space x), (Reference.spaceless a); done.
Qed.

Lemma skip_space_spaceless s :
  Reference.spaceless s = true → Reference.skip_space s = s.
Proof. destruct s as [|c r]; [done|]. cbn. by destruct (Reference.is_space c). Qed.

Lemma trim_spaceless s : Reference.spaceless s = true → Reference.trim s = s.
Proof.
  intros Hs. unfold Reference.trim. rewrite (skip_space_spaceless s Hs).
  rewrite skip_space_spaceless; [apply rev_rev|].
  unfold String.rev. rewrite spaceless_rev_app. by rewrite Hs.
Qed.

Lemma unsigned_integer_pretty (p : positive) :
  Reference.unsigned_integer (pretty_N_go (N.pos p) EmptyString) = Int (Z.pos p).
Proof.
  unfold Reference.unsigned_integer.
  destruct (pretty_N_go_head (N.pos p) EmptyString) as (c & r & Hp & Hc & _); [lia|].
  rewrite Hp. cbn [Reference.starts_with_digit]. rewrite Hc, <- Hp.
  destruct (digits_pretty_N_go (N.pos p)) as (k & _ & ->). cbn. done.
Qed.

Lemma ToNumber_digits s :
  Reference.spaceless s = true → Reference.starts_with_digit s = true →
  Reference.ToNumber s = Reference.unsigned_integer s.
Proof.
  intros Hs Hd. unfold Reference.ToNumber. rewrite (trim_spaceless s Hs).
  destruct s as [|c r]; [done|]. cbn in Hd.
  destruct c as [[] [] [] [] [] [] [] []]; try discriminate Hd; reflexivity.
Qed.

(** The decimal text of an integer reads as that integer. *)
Lemma ToNumber_pretty (z : Z) : Reference.ToNumber (pretty z) = Int z.
Proof.
  destruct z as [|p|p].
  - reflexivity.
  - change (pretty (Z.pos p)) with (pretty_N_go (N.pos p) EmptyString).
    rewrite ToNumber_digits.
    + apply unsigned_integer_pretty.
    + by apply pretty_N_go_spaceless.
    + destruct (pretty_N_go_head (N.pos p) EmptyString) as (c & r & -> & Hc & _); [lia|].
      exact Hc.
  - change (pretty (Z.neg p)) with (String "-" (pretty_N_go (N.pos p) EmptyString)).
    unfold Reference.ToNumber. rewrite trim_spaceless.
    + by rewrite unsigned_integer_pretty.
    + cbn. by apply pretty_N_go_spaceless.
Qed.

(** The envelope of every integer status, on the reference platform: the
    error of that code below zero, the record of that status from zero
    on. *)
Lemma RestCallResult_decimal_status (z : Z) url scriptInfo :
  @RestCallResult reference_platform (example_envelope (pretty z)) url scriptInfo
  = if z <? 0 then
      Throw (ThrownRestCallMethodError
               (@RestCallMethodError reference_platform url (Int z) scriptInfo None))
    else
      Return {| output := Some example_output; result_status := Int z |}.
Proof.
  rewrite (@RestCallResult_found reference_platform _ url scriptInfo
             (example_result (pretty z)) (Element "Status" [TextNode (pretty z)]));
    [|reflexivity|reflexivity].
  cbn zeta.
  assert (@ToNumber reference_platform
            (textContent (Element "Status" [TextNode (pretty z)])) = Int z) as ->.
  { cbn [textContent map concat_strings]. rewrite string_app_nil_r.
    apply ToNumber_pretty. }
  reflexivity.
Qed.

(** * Further properties of the code *)

(** ** [escapeXml] *)

Lemma occurs_app c a b : occurs c (a +:+ b) = occurs c a || occurs c b.
Proof.
  induction a as [|x a IH]; [done|].
  rewrite string_app_cons. cbn [occurs]. rewrite IH. by rewrite orb_assoc.
Qed.

Lemma length_app a b :
  String.length (a +:+ b) = (String.length a + String.length b)%nat.
Proof.
  induction a as [|x a IH]; [done|]. rewrite string_app_cons. cbn. by rewrite IH.
Qed.

(** On every value [escapeXml] is [escapeXml] on a text. *)
Lemma escapeXml_toString `{Platform} v :
  escapeXml v = escapeXml (JStr (toString (if truthy v then v else JStr EmptyString))).
Proof. by rewrite escapeXml_text. Qed.

Lemma escapeXml_text_no_angle_bracket `{Platform} s :
  occurs "<" (escapeXml (JStr s)) = false ∧ occurs ">" (escapeXml (JStr s)) = false.
Proof.
  induction s as [|c s [IHlt IHgt]]; [done|].
  rewrite escapeXml_cons, !occurs_app, IHlt, IHgt, !orb_false_r.
  destruct (Ascii.eqb_spec c "&") as [->|Hamp]; [done|].
  destruct (Ascii.eqb_spec c "<") as [->|Hlt]; [done|].
  destruct (Ascii.eqb_spec c ">") as [->|Hgt]; [done|].
  cbn. rewrite !orb_false_r. split; by apply Ascii.eqb_neq.
Qed.

(** X1: whatever the value, the text [escapeXml] returns holds no angle
    bracket. *)
Theorem escapeXml_has_no_angle_bracket `{Platform} v :
  occurs "<" (escapeXml v) = false ∧ occurs ">" (escapeXml v) = false.
Proof. rewrite escapeXml_toString. apply escapeXml_text_no_angle_bracket. Qed.

Lemma prefix_nil s : String.prefix EmptyString s = true.
Proof. by destruct s. Qed.

Lemma xml_text_entity e t rest :
  Reference.xml_text 0 e = Some (t, rest) →
  Reference.xml_text 0 ("&amp;" +:+ e) = Some (String "&" t, rest)
  ∧ Reference.xml_text 0 ("&lt;" +:+ e) = Some (String "<" t, rest)
  ∧ Reference.xml_text 0 ("&gt;" +:+ e) = Some (String ">" t, rest).
Proof.
  intros He. rewrite !string_app_cons, !string_app_nil_l.
  cbn. rewrite !prefix_nil, He. done.
Qed.

(** The reader of character data gives back the text that was escaped. *)
Lemma xml_text_escapeXml `{Platform} s :
  Reference.xml_text 0 (escapeXml (JStr s)) = Some (s, EmptyString).
Proof.
  induction s as [|c s IH]; [done|].
  rewrite escapeXml_cons.
  destruct (xml_text_entity _ _ _ IH) as (Hamp' & Hlt' & Hgt').
  destruct (Ascii.eqb_spec c "&") as [->|Hamp]; [exact Hamp'|].
  destruct (Ascii.eqb_spec c "<") as [->|Hlt]; [exact Hlt'|].
  destruct (Ascii.eqb_spec c ">") as [->|Hgt]; [exact Hgt'|].
  rewrite string_app_cons, string_app_nil_l. cbn [Reference.xml_text].
  apply Ascii.eqb_neq in Hamp, Hlt. rewrite Hamp, Hlt, IH. done.
Qed.

(** X2: on texts [escapeXml] loses nothing: two texts with the same
    escaped text are the same text. *)
Theorem escapeXml_injective `{Platform} a b :
  escapeXml (JStr a) = escapeXml (JStr b) → a = b.
Proof.
  intros Heq. pose proof (xml_text_escapeXml a) as Ha.
  rewrite Heq, xml_text_escapeXml in Ha. by injection Ha.
Qed.

Lemma escapeXml_injective_witness :
  (@escapeXml reference_platform) (JStr "a<b") = (@escapeXml reference_platform) (JStr "a<b") ∧ "a<b" = "a<b".
Proof.
  split; [reflexivity|]. exact (@escapeXml_injective reference_platform "a<b" "a<b" eq_refl).
Defined.

(** X3: escaping a concatenation is concatenating the escaped texts. *)
Theorem escapeXml_app `{Platform} a b :
  escapeXml (JStr (a +:+ b)) = escapeXml (JStr a) +:+ escapeXml (JStr b).
Proof. rewrite !escapeXml_text. apply replace_class_app. Qed.

(** A text without the three characters is left as it is. *)
Lemma escapeXml_entity_free `{Platform} s :
  entity_free s = true → escapeXml (JStr s) = s.
Proof.
  induction s as [|c s IH]; [done|]. cbn [entity_free].
  intros [Hc Hs]%andb_true_iff. rewrite escapeXml_cons, (IH Hs).
  unfold ENTITIES_REG in Hc. apply negb_true_iff in Hc.
  apply orb_false_iff in Hc as [[Hamp Hlt]%orb_false_iff Hgt].
  by rewrite Hamp, Hlt, Hgt.
Qed.

(** Escaping never shortens a text, and lengthens it as soon as one of the
    three characters occurs. *)
Lemma escapeXml_length `{Platform} s :
  (String.length s ≤ String.length (escapeXml (JStr s)))%nat
  ∧ (entity_free s = false →
     (String.length s < String.length (escapeXml (JStr s)))%nat).
Proof.
  induction s as [|c s [IHle IHlt]]; [done|].
  rewrite escapeXml_cons, length_app. cbn [entity_free String.length].
  unfold ENTITIES_REG.
  destruct (Ascii.eqb c "&"); [cbn -[escapeXml]; split; intros; lia|].
  destruct (Ascii.eqb c "<"); [cbn -[escapeXml]; split; intros; lia|].
  destruct (Ascii.eqb c ">"); [cbn -[escapeXml]; split; intros; lia|].
  cbn -[escapeXml]. split; [lia|]. intros Hs. specialize (IHlt Hs). lia.
Qed.

(** The escaped text holds one of the three characters exactly when the
    text does: the ampersand of an entity. *)
Lemma entity_free_escapeXml `{Platform} s :
  entity_free (escapeXml (JStr s)) = entity_free s.
Proof.
  induction s as [|c s IH]; [done|].
  rewrite escapeXml_cons. cbn [entity_free]. unfold ENTITIES_REG.
  destruct (Ascii.eqb c "&") eqn:Hamp; [done|].
  destruct (Ascii.eqb c "<") eqn:Hlt; [done|].
  destruct (Ascii.eqb c ">") eqn:Hgt; [done|].
  rewrite string_app_cons, string_app_nil_l. cbn [entity_free].
  unfold ENTITIES_REG. by rewrite Hamp, Hlt, Hgt, IH.
Qed.

(** X4: [escapeXml] returns a text unchanged exactly when the text holds
    none of the three characters. *)
Theorem escapeXml_unchanged_iff_entity_free `{Platform} s :
  escapeXml (JStr s) = s ↔ entity_free s = true.
Proof.
  split; [|apply escapeXml_entity_free].
  intros Heq. destruct (entity_free s) eqn:Hs; [done|].
  destruct (escapeXml_length s) as [_ Hlt]. specialize (Hlt Hs).
  rewrite Heq in Hlt. lia.
Qed.

Lemma escapeXml_unchanged_iff_entity_free_witness :
  entity_free "a b" = true ∧ (@escapeXml reference_platform) (JStr "a b") = "a b".
Proof.
  split; [reflexivity|].
  exact (proj2 (escapeXml_unchanged_iff_entity_free "a b") eq_refl).
Defined.

(** X5: escaping twice is escaping once exactly when the text holds none
    of the three characters: an escaped text is escaped again, its
    ampersands included. *)
Theorem escapeXml_twice_iff_entity_free `{Platform} s :
  escapeXml (JStr (escapeXml (JStr s))) = escapeXml (JStr s)
  ↔ entity_free s = true.
Proof.
  rewrite <- (entity_free_escapeXml s). split.
  - intros Heq. destruct (entity_free (escapeXml (JStr s))) eqn:Hs; [done|].
    destruct (escapeXml_length (escapeXml (JStr s))) as [_ Hlt].
    specialize (Hlt Hs). rewrite Heq in Hlt. lia.
  - apply escapeXml_entity_free.
Qed.

Lemma escapeXml_twice_iff_entity_free_witness :
  (@escapeXml reference_platform) (JStr ((@escapeXml reference_platform) (JStr "a&b"))) ≠ (@escapeXml reference_platform) (JStr "a&b")
  ∧ (@escapeXml reference_platform) (JStr ((@escapeXml reference_platform) (JStr "a&b"))) = "a&amp;amp;b".
Proof.
  split; [|reflexivity].
  intros Heq.
  pose proof (proj1 (escapeXml_twice_iff_entity_free "a&b") Heq) as Hfree.
  discriminate Hfree.
Defined.

(** ** [objToXML] *)

(** X6: the rendering of an object is the rendering of its first
    properties followed by the rendering of the others. *)
Theorem objToXML_app `{Platform} props1 props2 :
  objToXML (JObj (props1 ++ props2))
  = objToXML (JObj props1) +:+ objToXML (JObj props2).
Proof.
  cbn [objToXML]. rewrite !objToXML_loop_concat.
  induction props1 as [|p props1 IH]; [done|].
  cbn [app map concat_strings]. by rewrite IH, string_app_assoc.
Qed.

Lemma objToXML_singleton `{Platform} k v :
  objToXML (JObj [(k, v)])
  = xml_element k (if is_object v then objToXML v else escapeXml v).
Proof. cbn [objToXML]. rewrite objToXML_loop_concat. cbn. apply string_app_nil_r. Qed.

(** A falsy value has an empty rendering: [null] through the recursion,
    the others through [escapeXml]. *)
Lemma falsy_inner `{Platform} v :
  truthy v = false →
  (if is_object v then objToXML v else escapeXml v) = EmptyString.
Proof.
  destruct v as [| |[]|[z|]|s| |]; try done.
  - cbn. intros Hz. unfold escapeXml. cbn. by rewrite Hz.
  - cbn. intros Hs. apply negb_false_iff, String.eqb_eq in Hs. by subst.
Qed.

(** X7: a property whose value is falsy ([0], [NaN], [false], [null],
    [undefined], the empty text) is rendered as an empty element,
    wherever it stands in the object: the number [0] is not printed. *)
Theorem objToXML_falsy_is_empty_element `{Platform} props1 k v props2 :
  truthy v = false →
  objToXML (JObj (props1 ++ (k, v) :: props2))
  = objToXML (JObj props1) +:+ "<" +:+ k +:+ "></" +:+ k +:+ ">"
    +:+ objToXML (JObj props2).
Proof.
  intros Hv. change ((k, v) :: props2) with ([(k, v)] ++ props2).
  rewrite !objToXML_app, objToXML_singleton, (falsy_inner v Hv).
  unfold xml_element. by rewrite !string_app_assoc.
Qed.

Lemma objToXML_falsy_is_empty_element_witness :
  truthy (JNum (Int 0)) = false
  ∧ (@objToXML reference_platform) (JObj [("a", JStr "x"); ("n", JNum (Int 0)); ("b", JNum (Int 7))])
    = "<a>x</a><n></n><b>7</b>".
Proof.
  split; [reflexivity|].
  exact (objToXML_falsy_is_empty_element [("a", JStr "x")] "n" (JNum (Int 0))
           [("b", JNum (Int 7))] eq_refl).
Defined.

(** X8: an array is rendered as the object whose keys are its indices,
    from [0] on: one element named by the index per item. *)
Theorem objToXML_array `{Platform} items :
  objToXML (JArr items) = objToXML (JObj (indexed 0 items))
  ∧ ∀ item, objToXML (JArr (items ++ [item]))
            = objToXML (JArr items)
              +:+ xml_element (pretty (length items))
                    (if is_object item then objToXML item else escapeXml item).
Proof.
  assert (∀ l, objToXML (JArr l) = objToXML (JObj (indexed 0 l))) as Harr.
  { intros l. cbn [objToXML]. apply objToXML_items_indexed. }
  split; [apply Harr|]. intros item. rewrite !Harr.
  assert (∀ i l, indexed i (l ++ [item])
                 = indexed i l ++ [(pretty (i + length l)%nat, item)]) as Hidx.
  { intros i l. revert i. induction l as [|x l IH]; intros i; cbn.
    - by rewrite Nat.add_0_r.
    - rewrite IH. by rewrite Nat.add_succ_r. }
  rewrite Hidx, objToXML_app, objToXML_singleton. done.
Qed.

(** ** [getResponseHeadersList] *)

(** X9: for names of headers that are neither array indices nor
    [__proto__], each listed once, the object built has for own properties
    the names of the list, in the order of the list, each with the value
    the handle reports for it; its prototype is left alone. *)
Theorem getResponseHeadersList_keys_in_order x (names : list string) :
  NoDup names →
  (∀ name, name ∈ names → name ≠ "__proto__" ∧ array_index name = None) →
  getResponseHeadersList x names
  = {| inherits := true;
       own := map (λ name, (name, getResponseHeader x name)) names |}.
Proof.
  intros Hnd Hall. unfold getResponseHeadersList.
  rewrite getResponseHeadersList_loop_in_order; [done|done|].
  intros name Hin. destruct (Hall name Hin). done.
Qed.

Lemma getResponseHeadersList_keys_in_order_witness :
  NoDup ["X-Total"; "Content-Type"]
  ∧ getResponseHeadersList new_XMLHttpRequest ["X-Total"; "Content-Type"]
    = {| inherits := true;
         own := [("X-Total", getResponseHeader new_XMLHttpRequest "X-Total");
                 ("Content-Type",
                  getResponseHeader new_XMLHttpRequest "Content-Type")] |}.
Proof.
  assert (NoDup ["X-Total"; "Content-Type"]) as Hnd.
  { apply NoDup_cons. split.
    - intros Hin. apply list_elem_of_singleton in Hin. discriminate Hin.
    - apply NoDup_singleton. }
  split; [exact Hnd|].
  apply (getResponseHeadersList_keys_in_order new_XMLHttpRequest _ Hnd).
  intros name Hin. apply elem_of_cons in Hin as [->|Hin].
  - split; [discriminate|reflexivity].
  - apply list_elem_of_singleton in Hin as ->. split; [discriminate|reflexivity].
Defined.

(** ** [RestCallResult] *)

(** An element found by name has that name. *)
Lemma find_element_tag name :
  ∀ n e, find_element name n = Some e → ∃ kids, e = Element name kids.
Proof.
  fix IH 1. intros [tag kids|t] e; [|done]. cbn [find_element].
  destruct (String.eqb_spec tag name) as [->|Hne].
  - intros [= <-]. eauto.
  - induction kids as [|k ks IHks]; [done|]. cbn [first_match].
    destruct (find_element name k) as [e'|] eqn:Hk.
    + intros [= <-]. exact (IH k e' Hk).
    + exact IHks.
Qed.

Lemma first_match_tag name nodes e :
  first_match (find_element name) nodes = Some e → ∃ kids, e = Element name kids.
Proof.
  induction nodes as [|k ks IH]; [done|]. cbn [first_match].
  destruct (find_element name k) as [e'|] eqn:Hk.
  - intros [= <-]. exact (find_element_tag name k e' Hk).
  - exact IH.
Qed.

Lemma querySelector_tag name element e :
  querySelector name element = Some e → ∃ kids, e = Element name kids.
Proof. destruct element; [apply first_match_tag|done]. Qed.

(** X10: the record [RestCallResult] returns holds, for output, [null] or
    an element named [Output]; no other node. *)
Theorem RestCallResult_output_is_an_Output_element `{Platform}
    response url scriptInfo r :
  RestCallResult response url scriptInfo = Return r →
  output r = None ∨ ∃ kids, output r = Some (Element "Output" kids).
Proof.
  unfold RestCallResult.
  destruct (document_querySelector "RestCallResult" response) as [rcr|]; [|done].
  destruct (querySelector "Status" rcr) as [st|]; [|done].
  destruct (negative _); [done|]. intros [= <-]. cbn [output].
  destruct (querySelector "Output" rcr) as [n|] eqn:Hout; [|by left].
  right. destruct (querySelector_tag _ _ _ Hout) as [kids ->]. eauto.
Qed.

Lemma RestCallResult_output_is_an_Output_element_witness :
  @RestCallResult reference_platform (example_envelope "0") example_url None
  = Return {| output := Some example_output; result_status := Int 0 |}
  ∧ ∃ kids, Some example_output = Some (Element "Output" kids).
Proof.
  split; [reflexivity|].
  destruct (@RestCallResult_output_is_an_Output_element reference_platform
              (example_envelope "0") example_url None
              {| output := Some example_output; result_status := Int 0 |} eq_refl)
    as [Hnone|Hsome]; [discriminate Hnone|exact Hsome].
Defined.

(** X12: a [Status] whose text is no number is not an error: [NaN] is not
    below zero, and [RestCallResult] returns the record with the status
    [NaN]. *)
Theorem RestCallResult_NaN_status_returns `{Platform} response url scriptInfo
    restCallResult statusElement :
  document_querySelector "RestCallResult" response = Some restCallResult →
  querySelector "Status" restCallResult = Some statusElement →
  ToNumber (textContent statusElement) = NaN →
  RestCallResult response url scriptInfo
  = Return {| output := querySelector "Output" restCallResult;
              result_status := NaN |}.
Proof.
  intros Hr Hs Hn. rewrite (RestCallResult_found _ _ _ _ _ Hr Hs).
  cbn zeta. by rewrite Hn.
Qed.

Lemma RestCallResult_NaN_status_returns_witness :
  document_querySelector "RestCallResult" (example_envelope "failed")
  = Some (example_result "failed")
  ∧ querySelector "Status" (example_result "failed")
    = Some (Element "Status" [TextNode "failed"])
  ∧ @ToNumber reference_platform (textContent (Element "Status" [TextNode "failed"]))
    = NaN
  ∧ @RestCallResult reference_platform (example_envelope "failed") example_url None
    = Return {| output := Some example_output; result_status := NaN |}.
Proof.
  split; [reflexivity|]. split; [reflexivity|]. split; [reflexivity|].
  exact (@RestCallResult_NaN_status_returns reference_platform
           (example_envelope "failed") example_url None
           (example_result "failed") (Element "Status" [TextNode "failed"])
           eq_refl eq_refl eq_refl).
Defined.

(** ** The subscription *)

(** X13: a subscription opens the handle first (with [GET] when no method
    is given), sets one request header per header of the options, in their
    order, registers the load listener then the error listener, and sends
    the data last; the handle is then opened (1), both listeners are
    registered and nothing has been delivered. *)
Theorem subscribe_opens_configures_and_sends options now :
  let s := subscribe options now in
  calls (handle s)
  = XOpen (if opt_truthy (Options.method options)
           then opt_template (Options.method options) else "GET")
      (Options.url options) true
    :: map (fun p => XSetRequestHeader (fst p) (snd p))
         (default [] (Options.headers options))
    ++ [XAddEventListener "load" the_onLoad false;
        XAddEventListener "error" the_onError false;
        XSend (Options.data options)]
  ∧ readyState (handle s) = 1
  ∧ listening "load" the_onLoad (handle s) = true
  ∧ listening "error" the_onError (handle s) = true
  ∧ xhr s = to_handle ∧ sent s = now ∧ observer s = [].
Proof.
  intros s. subst s. split; [apply calls_subscribe|].
  split; [apply readyState_subscribe|].
  destruct (listening_subscribe options now) as [Hl He].
  split; [exact Hl|]. split; [exact He|]. done.
Qed.

(** X14: whatever the reply, the load event on a subscription gives the
    observer either one error and nothing else, or one value followed by
    the completion. *)
Theorem load_delivers_one_error_or_one_value `{Platform} options t0 r total now :
  let delivered := observer (transport_load r total now (subscribe options t0)) in
  (∃ e, delivered = [OnError (ThrownRequestError e)])
  ∨ (∃ v, delivered = [OnNext v; OnCompleted]).
Proof.
  intros delivered. subst delivered. rewrite transport_load_subscribe.
  unfold onLoad. cbn zeta.
  destruct (_ || _); [left; eauto|].
  destruct (null_payload _); [left; eauto|].
  right. destruct (Options.withMetadata _); eauto.
Qed.

(** X16: unsubscribing right after subscribing always aborts: the
    teardown returns after the two removals and one abort, the handle is
    unsent (0), nothing was delivered; running the teardown once more
    throws a [TypeError]. *)
Theorem unsubscribe_right_after_subscribe_aborts options t0 :
  ∃ s',
    teardown (subscribe options t0) = Return s'
    ∧ calls (handle s')
      = calls (handle (subscribe options t0))
        ++ [XRemoveEventListener "load" the_onLoad;
            XRemoveEventListener "error" the_onError;
            XAbort]
    ∧ readyState (handle s') = 0
    ∧ xhr s' = null ∧ observer s' = []
    ∧ teardown s' = Throw ThrownTypeError.
Proof.
  rewrite teardown_live by reflexivity. rewrite readyState_subscribe.
  cbn [Z.ltb Z.compare andb]. eexists. split; [reflexivity|].
  split; [|done]. cbn. by rewrite <- !List.app_assoc.
Qed.

(** X17: the [url] of the record emitted with [withMetadata] is the final
    URL the handle reports, and the URL of the request when the handle
    reports none. *)
Theorem outcome_url_is_the_final_url `{Platform} options t0 r total now :
  200 ≤ reply_status r < 300 →
  null_payload (decode (Options.format options)
                  (completed r (handle (subscribe options t0)))) = false →
  Options.withMetadata options = true →
  ∃ m,
    observer (transport_load r total now (subscribe options t0))
    = [OnNext (WithMetadata m); OnCompleted]
    ∧ md_url m = (if String.eqb (reply_responseURL r) EmptyString
                  then Options.url options else reply_responseURL r).
Proof.
  intros Hst Hnull Hmd. rewrite transport_load_subscribe.
  rewrite onLoad_metadata by done. eexists. split; reflexivity.
Qed.

Lemma outcome_url_is_the_final_url_witness :
  200 ≤ 200 < 300
  ∧ ∃ m,
      observer (@transport_load reference_platform
                  (example_reply 200 "OK" (Value (JStr "hello")) "hello") 12 5
                  (subscribe (example_options None true None) 2))
      = [OnNext (WithMetadata m); OnCompleted]
      ∧ md_url m = example_url.
Proof.
  assert (200 ≤ 200 < 300) as Hst by lia. split; [exact Hst|].
  exact (@outcome_url_is_the_final_url reference_platform
           (example_options None true None) 2
           (example_reply 200 "OK" (Value (JStr "hello")) "hello") 12 5
           Hst eq_refl eq_refl).
Defined.

(** X18: with a format other than [document], and unless the format is
    [json] and the response still a text, the value delivered is the
    response of the handle as it is. *)
Theorem other_formats_pass_the_response_through `{Platform}
    options t0 r total now :
  opt_is (Options.format options) "document" = false →
  (opt_is (Options.format options) "json" = false
   ∨ ∀ text, reply_response r ≠ Value (JStr text)) →
  200 ≤ reply_status r < 300 →
  null_payload (reply_response r) = false →
  Options.withMetadata options = false →
  observer (transport_load r total now (subscribe options t0))
  = [OnNext (Bare (reply_response r)); OnCompleted].
Proof.
  intros Hdoc Hjson Hst Hnull Hmd.
  assert (decode (Options.format options)
            (completed r (handle (subscribe options t0))) = reply_response r)
    as Hdecode.
  { unfold decode. rewrite Hdoc. cbn [response completed].
    destruct (reply_response r) as [[| | | |text| |]| |] eqn:Hr; try done.
    destruct Hjson as [-> | Hjson]; [done|]. by destruct (Hjson text). }
  rewrite transport_load_subscribe.
  rewrite onLoad_bare; [| done | | done];
    rewrite vars_set_handle, vars_subscribe; cbn [target]; by rewrite Hdecode.
Qed.

Lemma other_formats_pass_the_response_through_witness :
  opt_is (Options.format (example_options (Some "arraybuffer") false None))
    "document" = false
  ∧ (∀ text, reply_response (example_reply 200 "OK" (Binary "xyz") EmptyString)
             ≠ Value (JStr text))
  ∧ 200 ≤ 200 < 300
  ∧ observer (@transport_load reference_platform
                (example_reply 200 "OK" (Binary "xyz") EmptyString) 3 5
                (subscribe (example_options (Some "arraybuffer") false None) 0))
    = [OnNext (Bare (Binary "xyz")); OnCompleted].
Proof.
  split; [reflexivity|].
  assert (∀ text, reply_response (example_reply 200 "OK" (Binary "xyz") EmptyString)
                  ≠ Value (JStr text)) as Hbin by (intros text; discriminate).
  split; [exact Hbin|].
  assert (200 ≤ 200 < 300) as Hst by lia. split; [exact Hst|].
  exact (@other_formats_pass_the_response_through reference_platform
           (example_options (Some "arraybuffer") false None) 0
           (example_reply 200 "OK" (Binary "xyz") EmptyString) 3 5
           eq_refl (or_intror Hbin) Hst eq_refl eq_refl).
Defined.

(** X19: with the format [json], a text that [JSON.parse] reads as
    [null] is a failure like a malformed one: the observer receives the
    error of the null response and no value. *)
Theorem json_null_is_a_null_response `{Platform} options t0 r total now text v :
  Options.format options = Some "json" →
  reply_response r = Value (JStr text) →
  JSON_parse text = Some v → nullish v = true →
  200 ≤ reply_status r < 300 →
  observer (transport_load r total now (subscribe options t0))
  = [OnError (ThrownRequestError
        (RequestError (Options.url options)
           (OfXhr (completed r (handle (subscribe options t0))))
           (null_response_message (Some "json")) JNull))].
Proof.
  intros Hf Hr Hparse Hv Hst. rewrite transport_load_subscribe.
  rewrite onLoad_null; [| done |];
    rewrite vars_set_handle, vars_subscribe, Hf; [done|].
  unfold decode. cbn. rewrite Hr. unfold toJSONForIE. by rewrite Hparse.
Qed.

Lemma json_null_is_a_null_response_witness :
  @JSON_parse reference_platform "null" = Some JNull
  ∧ 200 ≤ 200 < 300
  ∧ ∃ e,
      observer (@transport_load reference_platform
                  (example_reply 200 "OK" (Value (JStr "null")) "null") 4 5
                  (subscribe (example_options (Some "json") false None) 0))
      = [OnError (ThrownRequestError e)]
      ∧ re_code e = JNum (Int 200).
Proof.
  split; [reflexivity|].
  assert (200 ≤ 200 < 300) as Hst by lia. split; [exact Hst|].
  eexists. split.
  - exact (@json_null_is_a_null_response reference_platform
             (example_options (Some "json") false None) 0
             (example_reply 200 "OK" (Value (JStr "null")) "null") 4 5 "null" JNull
             eq_refl eq_refl eq_refl eq_refl Hst).
  - reflexivity.
Defined.

(** While neither listener is registered, an event of the transport
    delivers nothing and registers nothing. *)
Lemma transport_step_unheard `{Platform} ev s :
  listening "load" the_onLoad (handle s) = false →
  listening "error" the_onError (handle s) = false →
  observer (transport_step ev s) = observer s
  ∧ listening "load" the_onLoad (handle (transport_step ev s)) = false
  ∧ listening "error" the_onError (handle (transport_step ev s)) = false.
Proof.
  intros Hl He. destruct ev as [rs|r total now|]; cbn [transport_step].
  - done.
  - unfold transport_load. cbn zeta. rewrite listening_completed, Hl.
    cbn [handle set_handle observer]. by rewrite !listening_completed.
  - unfold transport_error. cbn zeta. rewrite listening_failed, He.
    cbn [handle set_handle observer]. by rewrite !listening_failed.
Qed.

Lemma transport_run_unheard `{Platform} evs s :
  listening "load" the_onLoad (handle s) = false →
  listening "error" the_onError (handle s) = false →
  observer (transport_run evs s) = observer s.
Proof.
  revert s. induction evs as [|ev evs IH]; intros s Hl He; [done|].
  cbn [transport_run].
  destruct (transport_step_unheard ev s Hl He) as (Hobs & Hl' & He').
  by rewrite IH.
Qed.

(** X15: once the teardown has run on an exchange in flight, no run of
    events of the transport (progress, load, failure, in any number and
    order) delivers anything to the observer. *)
Theorem unsubscribed_in_flight_hears_nothing `{Platform} s s' evs :
  xhr s = to_handle → 0 < readyState (handle s) < 4 →
  teardown s = Return s' →
  observer (transport_run evs s') = observer s.
Proof.
  intros Hx Hrs. rewrite (teardown_live s Hx).
  apply in_flight_iff in Hrs. rewrite Hrs. intros [= <-].
  rewrite transport_run_unheard; [done| |];
    cbn [handle set_xhr set_handle]; rewrite listening_after_detach;
    cbn; by rewrite andb_false_r.
Qed.

Lemma unsubscribed_in_flight_hears_nothing_witness :
  xhr (example_in_flight 3) = to_handle
  ∧ 0 < readyState (handle (example_in_flight 3)) < 4
  ∧ ∃ s',
      teardown (example_in_flight 3) = Return s'
      ∧ observer (@transport_run reference_platform
                    [Load (example_reply 200 "OK" (Value (JStr "late")) "late") 4 9;
                     Failure; Progress 4]
                    s')
        = [].
Proof.
  split; [reflexivity|].
  assert (0 < readyState (handle (example_in_flight 3)) < 4) as Hrs by (cbn; lia).
  split; [exact Hrs|].
  eexists. split; [reflexivity|].
  exact (@unsubscribed_in_flight_hears_nothing reference_platform
           (example_in_flight 3) _ _ eq_refl Hrs eq_refl).
Defined.

(** ** The remote-call adapter *)

Lemma GetSubstitution_plain_prefix matched before after a r :
  occurs "$" a = false →
  GetSubstitution matched before after (a +:+ r)
  = a +:+ GetSubstitution matched before after r.
Proof.
  induction a as [|c a IH]; [done|].
  cbn [occurs]. intros [Hc Ha]%orb_false_iff. specialize (IH Ha).
  rewrite !string_app_cons.
  destruct c as [[] [] [] [] [] [] [] []]; try discriminate Hc;
    cbn [GetSubstitution]; by rewrite IH.
Qed.

(** X20: the body of a remote call is not always the serialization of the
    data: where the serialization holds two dollars in a row (and no other
    dollar), the body holds one. *)
Theorem restCallMethod_halves_a_doubled_dollar `{Platform} fuel options (h : heap) o xml1 xml2 :
  h !! options = Some o →
  Options.format o = Some "rest-call-method" →
  objToXML (Options.data o) = xml1 +:+ "$$" +:+ xml2 →
  occurs "$" xml1 = false → occurs "$" xml2 = false →
  ∃ h' producer o',
    request (S (S fuel)) options h = Some (h', producer)
    ∧ h' !! options = Some o'
    ∧ Options.data o'
      = JStr (envelope_open +:+ xml1 +:+ "$" +:+ xml2 +:+ envelope_close).
Proof.
  intros Ho Hf Hxml H1 H2. eexists. eexists. eexists. split.
  - apply request_rest_call_method; [exact Ho|]. by rewrite Hf.
  - rewrite lookup_insert_eq. split; [reflexivity|]. cbn [Options.data].
    unfold string_replace. rewrite split_first_METHOD_CALL_XML, Hxml.
    rewrite GetSubstitution_plain_prefix by exact H1.
    rewrite !string_app_cons, string_app_nil_l. cbn [GetSubstitution].
    rewrite GetSubstitution_plain by exact H2.
    by rewrite !string_app_assoc.
Qed.

Lemma restCallMethod_halves_a_doubled_dollar_witness :
  ({[0%nat := Options.set_data (JObj [("a", JStr "$$")]) example_call]} : heap) !! 0%nat
  = Some (Options.set_data (JObj [("a", JStr "$$")]) example_call)
  ∧ (@objToXML reference_platform) (JObj [("a", JStr "$$")]) = "<a>" +:+ "$$" +:+ "</a>"
  ∧ ∃ h' producer o',
      (@request reference_platform) 2 0 {[0%nat := Options.set_data (JObj [("a", JStr "$$")]) example_call]}
      = Some (h', producer)
      ∧ h' !! 0%nat = Some o'
      ∧ Options.data o'
        = JStr (envelope_open +:+ "<a>$</a>" +:+ envelope_close).
Proof.
  assert (({[0%nat := Options.set_data (JObj [("a", JStr "$$")]) example_call]} : heap)
            !! 0%nat
          = Some (Options.set_data (JObj [("a", JStr "$$")]) example_call)) as Ho
    by apply lookup_singleton_eq.
  split; [exact Ho|]. split; [reflexivity|].
  exact (restCallMethod_halves_a_doubled_dollar 0 0%nat _ _ "<a>" "</a>"
           Ho eq_refl eq_refl eq_refl eq_refl).
Defined.

(** X21: an options object that went through a remote call is no remote
    call any more: [request] on it again returns the plain producer, not
    mapped through [RestCallResult], and leaves the store as it is. *)
Theorem request_again_is_a_plain_request `{Platform} fuel fuel' options (h : heap) o :
  h !! options = Some o →
  Options.format o = Some "rest-call-method" →
  ∃ h',
    request (S (S fuel)) options h
    = Some (h', MapRestCallResult (Create options) options)
    ∧ request (S fuel') options h' = Some (h', Create options).
Proof.
  intros Ho Hf. eexists. split.
  - apply request_rest_call_method; [exact Ho|]. by rewrite Hf.
  - eapply request_create; [apply lookup_insert_eq|]. reflexivity.
Qed.

Lemma request_again_is_a_plain_request_witness :
  ({[0%nat := example_call]} : heap) !! 0%nat = Some example_call
  ∧ ∃ h',
      (@request reference_platform) 2 0 {[0%nat := example_call]}
      = Some (h', MapRestCallResult (Create 0) 0)
      ∧ (@request reference_platform) 2 0 h' = Some (h', Create 0).
Proof.
  assert (({[0%nat := example_call]} : heap) !! 0%nat = Some example_call) as Ho
    by apply lookup_singleton_eq.
  split; [exact Ho|].
  exact (request_again_is_a_plain_request 0 1 0%nat _ example_call Ho eq_refl).
Defined.

(** With [withMetadata], every value delivered is the record. *)
Lemma onLoad_metadata_values `{Platform} now evt s v :
  Options.withMetadata (vars s) = true →
  OnNext v ∈ observer (onLoad now evt s) →
  OnNext v ∈ observer s ∨ ∃ m, v = WithMetadata m.
Proof.
  intros Hmd. unfold onLoad. cbn zeta. rewrite Hmd.
  destruct (_ || _).
  { cbn. intros [?|Hin]%elem_of_app; [by left|].
    apply list_elem_of_singleton in Hin. discriminate. }
  destruct (null_payload _).
  { cbn. intros [?|Hin]%elem_of_app; [by left|].
    apply list_elem_of_singleton in Hin. discriminate. }
  cbn. intros [[?|Hin]%elem_of_app|Hin]%elem_of_app; [by left| |];
    apply list_elem_of_singleton in Hin; [|discriminate].
  injection Hin as ->. right. eauto.
Qed.

(** X22: a remote call does not go with [withMetadata]: the value then
    delivered is the record, which is no document, and the mapping
    through [RestCallResult] throws a [TypeError] on it, whatever the
    reply. *)
Theorem remote_call_with_metadata_throws `{Platform} o o' t0 r total now v :
  Options.withMetadata o = true →
  OnNext v ∈ observer (transport_load r total now (subscribe o t0)) →
  restCallMethod_map o' v = Throw ThrownTypeError.
Proof.
  intros Hmd. rewrite transport_load_subscribe. intros Hin.
  apply onLoad_metadata_values in Hin; [|exact Hmd].
  destruct Hin as [Hin|[m ->]]; [|reflexivity].
  cbn in Hin. by apply elem_of_nil in Hin.
Qed.

Lemma remote_call_with_metadata_throws_witness :
  Options.withMetadata (example_options (Some "document") true None) = true
  ∧ ∃ v,
      OnNext v
      ∈ observer (@transport_load reference_platform
                    (example_reply 200 "OK" (Value JNull)
                       "<RestCallResult><Status>0</Status></RestCallResult>") 0 5
                    (subscribe (example_options (Some "document") true None) 0))
      ∧ @restCallMethod_map reference_platform example_call v
        = Throw ThrownTypeError.
Proof.
  split; [reflexivity|]. eexists.
  assert (∀ A (a : A) l, a ∈ a :: l) as Hhere by (intros; apply list_elem_of_here).
  split; [apply Hhere|].
  exact (@remote_call_with_metadata_throws reference_platform
           (example_options (Some "document") true None) example_call 0
           (example_reply 200 "OK" (Value JNull)
              "<RestCallResult><Status>0</Status></RestCallResult>") 0 5 _
           eq_refl (Hhere _ _ _)).
Defined.

(** X23: whatever method and headers the caller gave, a remote call is
    sent as a [POST] with the one header [Content-Type: application/xml]
    and the envelope for body, and the handle is asked for a text. *)
Theorem remote_call_is_sent_as_an_xml_post `{Platform} fuel options (h : heap) o now :
  h !! options = Some o →
  Options.format o = Some "rest-call-method" →
  ∃ h' producer s,
    request (S (S fuel)) options h = Some (h', producer)
    ∧ observable_subscribe producer h' now = Some s
    ∧ calls (handle s)
      = [XOpen "POST" (Options.url o) true;
         XSetRequestHeader "Content-Type" "application/xml";
         XAddEventListener "load" the_onLoad false;
         XAddEventListener "error" the_onError false;
         XSend (JStr (string_replace METHOD_CALL_XML "{payload}"
                        (objToXML (Options.data o))))]
    ∧ responseType (handle s) = "text".
Proof.
  intros Ho Hf. eexists. eexists. eexists. split.
  - apply request_rest_call_method; [exact Ho|]. by rewrite Hf.
  - split.
    + unfold observable_subscribe. cbn [source_options].
      rewrite lookup_insert_eq. reflexivity.
    + split; [|reflexivity]. rewrite calls_subscribe. reflexivity.
Qed.

Lemma remote_call_is_sent_as_an_xml_post_witness :
  ({[0%nat := Options.set_method (Some "PUT") example_call]} : heap) !! 0%nat
  = Some (Options.set_method (Some "PUT") example_call)
  ∧ ∃ h' producer s,
      (@request reference_platform) 2 0 {[0%nat := Options.set_method (Some "PUT") example_call]}
      = Some (h', producer)
      ∧ observable_subscribe producer h' 0 = Some s
      ∧ calls (handle s)
        = [XOpen "POST" example_url true;
           XSetRequestHeader "Content-Type" "application/xml";
           XAddEventListener "load" the_onLoad false;
           XAddEventListener "error" the_onError false;
           XSend (JStr (envelope_open +:+ "<a>v</a>" +:+ envelope_close))]
      ∧ responseType (handle s) = "text".
Proof.
  assert (({[0%nat := Options.set_method (Some "PUT") example_call]} : heap) !! 0%nat
          = Some (Options.set_method (Some "PUT") example_call)) as Ho
    by apply lookup_singleton_eq.
  split; [exact Ho|].
  exact (remote_call_is_sent_as_an_xml_post 0 0%nat _ _ 0 Ho eq_refl).
Defined.
